(** * Spot square-path starter: a shallow embedding

    Source files embedded here:
    - [robot_connection.py]    (class [SpotRobotConnection])
    - [square_movement.py]     (class [SquarePathWalker])
    - [square_path_example.py] ([main] and the [__main__] block)

    Conventions of the embedding.
    - Python numbers are values of a type [num] with the operations the
      program applies to them (class [Numeric]).  Two instances are given
      at the end of the model: IEEE binary64 (primitive floats, which is
      what CPython's [float] is) and the real numbers (exact arithmetic).
      An integer literal that Python would coerce in mixed arithmetic is
      written [of_int z].
    - Every call that reaches the robot or the clock ([time.time],
      [time.sleep]) is an event: it is appended to the trace of the run
      and its outcome (normal return or raised exception, and the value
      returned) is read from an oracle of type [Robot].
    - Two functions of the SDK that compute locally decide how the
      walks end, and their code is not part of this repository:
      [RobotCommandBuilder.mobility_params], of which only the declared
      keyword parameters matter (the program passes [max_vel_linear] and
      [max_vel_ang], and Python raises TypeError for a keyword the
      function does not declare), and [bosdyn.util.seconds_to_duration].
      Both are fields of [Robot]; [released_keywords] and
      [bosdyn_seconds_to_duration] give them as the released SDK has
      them.
    - [argparse] belongs to Python's library: what [parse_arguments()]
      yields on the command line is the input of the [__main__] block.
    - Python exceptions are explicit: a computation yields [Val a] or
      [Exc e]; [try]/[except]/[finally] are combinators.
    - The [logger.info], [logger.error] and [print] calls that announce
      or report a step are left out.  The [logger.debug] call inside the
      waypoint loop of [walk_square] is kept: each record it hands to
      the logger is appended to the [logged] component of the state. *)

From Stdlib Require Import ZArith String List Bool Lia.
From Stdlib Require Import Floats Uint63.
From Stdlib Require Import Reals Lra.
Import ListNotations.

Set Implicit Arguments.

(** ** Numbers *)

Class Numeric (num : Type) : Type := {
  of_int : Z -> num;              (* float(n), as done by mixed arithmetic *)
  nadd : num -> num -> num;       (* a + b *)
  nsub : num -> num -> num;       (* a - b *)
  nmul : num -> num -> num;       (* a * b *)
  ndiv : num -> num -> num;       (* a / b, divisor known to be non-zero *)
  nleb : num -> num -> bool;      (* a <= b *)
  nltb : num -> num -> bool;      (* a < b *)
  atan2 : num -> num -> num       (* math.atan2(y, x) *)
}.

(** ** Exceptions *)

Inductive exn : Type :=
| InvalidLoginError            (* bosdyn.client.auth.InvalidLoginError *)
| SdkError (code : nat)        (* any other subclass of Exception raised by a call *)
| AttributeError               (* attribute access on None *)
| IndexError                   (* list index out of range *)
| ZeroDivisionError
| TypeError                    (* a keyword argument the callee does not declare *)
| ValueError                   (* [int(nan)], a field value out of range *)
| OverflowError                (* [int(inf)] *)
| KeyboardInterrupt.           (* a BaseException that is not an Exception *)

(** [isinstance(e, Exception)] *)
Definition is_Exception (e : exn) : bool :=
  match e with
  | KeyboardInterrupt => false
  | _ => true
  end.

Definition is_InvalidLoginError (e : exn) : bool :=
  match e with
  | InvalidLoginError => true
  | _ => false
  end.

Definition is_KeyboardInterrupt (e : exn) : bool :=
  match e with
  | KeyboardInterrupt => true
  | _ => false
  end.

Inductive result (A : Type) : Type :=
| Val (a : A)
| Exc (e : exn).
Arguments Val {A} a.
Arguments Exc {A} e.

(** [XClient.default_service_name] *)
Inductive service : Type :=
| LeaseClient
| RobotCommandClient
| RobotStateClient
| PowerClient.

(** Objects handed out by the SDK are identified by the step of the run
    at which they were created. *)
Definition handle : Type := nat.

Section Model.

Context {num : Type} {NUM : Numeric num}.

(** ** Messages exchanged with the SDK *)

Record Vec2 : Type := { vec_x : num; vec_y : num }.

Record SE2Pose : Type := { position : Vec2; angle : num }.

(** [google.protobuf.Duration] *)
Record Duration : Type := { seconds : Z; nanos : Z }.

Record SE2TrajectoryPoint : Type := {
  pose : SE2Pose;
  time_since_reference : Duration
}.

Record SE2Trajectory : Type := { points : list SE2TrajectoryPoint }.

(** The SDK's [SE3Pose]: only its [transform_point] method is used. *)
Record SE3Pose : Type := {
  transform_point : num -> num -> num -> num * num * num
}.

(** [RobotCommandBuilder.mobility_params] *)
Record MobilityParams : Type := {
  max_vel_linear : num;
  max_vel_ang : num
}.

Definition VISION_FRAME_NAME : string := "vision".

(** The two [RobotCommandBuilder] constructors the program uses. *)
Inductive RobotCommand : Type :=
| synchro_se2_trajectory_point_command
    (goal_x goal_y goal_heading : num) (frame_name : string)
    (params : MobilityParams) (body_height : num)
| synchro_se2_trajectory_command
    (goal_se2 : SE2Pose) (frame_name : string) (params : MobilityParams).

Inductive call : Type :=
| create_standard_sdk (client_name : string)
| create_robot (hostname : string)
| robot_authenticate (username password : string)
| util_authenticate
| ensure_client (service_name : service)
| LeaseKeepAlive_init (must_acquire return_at_exit : bool)
| LeaseKeepAlive_exit
| is_estopped
| robot_power_on (timeout_sec : Z)
| wait_for_sync
| robot_shutdown
| blocking_stand (timeout_sec : Z)
| get_robot_state
| get_vision_tform_body
| time_time
| time_sleep (secs : num)
| robot_command (cmd : RobotCommand) (end_time_secs : num)
| block_for_trajectory_cmd (command_id : Z) (timeout_sec : num).

Inductive event : Type :=
| Called (c : call) (raised : option exn)
| Entered_disconnect.          (* ghost: one per invocation of [disconnect] *)

(** The behaviour of everything outside the program.  The answers of
    the robot and of the clock are indexed by the number of events that
    precede the call; the last two fields describe the installed SDK:
    the keyword parameters its [RobotCommandBuilder.mobility_params]
    declares, and its [bosdyn.util.seconds_to_duration]. *)
Record Robot : Type := {
  raises : nat -> option exn;
  estopped : nat -> bool;
  vision_tform_body : nat -> SE3Pose;
  clock : nat -> num;
  issued_id : nat -> Z;
  mobility_params_keywords : list string;
  seconds_to_duration : num -> result Duration
}.

(** What the waypoint loop of [walk_square] hands to [logger.debug]:
    the values its message formats. *)
Record LogRecord : Type := {
  point_idx : nat;
  point_x : num;
  point_y : num;
  point_heading : num;
  point_time : num
}.

(** ** Program state *)

Record SpotRobotConnection : Type := {
  hostname : string;
  client_name : string;
  verbose : bool;
  sdk : option handle;
  robot : option handle;
  lease_client : option handle;
  lease_keepalive : option handle;
  robot_command_client : option handle;
  robot_state_client : option handle;
  power_client : option handle
}.

Record SquarePathWalker : Type := {
  command_client : option handle;
  state_client : option handle
}.

Record State : Type := {
  conn : SpotRobotConnection;
  trace : list event;
  logged : list LogRecord
}.

(** ** The monad of the program *)

Definition M (A : Type) : Type := Robot -> State -> result A * State.

Definition ret {A} (a : A) : M A := fun _ st => (Val a, st).

Definition raise {A} (e : exn) : M A := fun _ st => (Exc e, st).

Definition bind {A B} (m : M A) (k : A -> M B) : M B :=
  fun rb st =>
    match m rb st with
    | (Val a, st') => k a rb st'
    | (Exc e, st') => (Exc e, st')
    end.

Notation "x <- m ;; k" := (bind m (fun x => k))
  (at level 100, m at next level, right associativity).
Notation "m ;; k" := (bind m (fun _ => k))
  (at level 100, right associativity).

(** [try: body  except <classes>: handler]; [handler e = None] when no
    clause matches [e]. *)
Definition try_except {A} (body : M A) (handler : exn -> option (M A)) : M A :=
  fun rb st =>
    match body rb st with
    | (Val a, st') => (Val a, st')
    | (Exc e, st') =>
        match handler e with
        | Some h => h rb st'
        | None => (Exc e, st')
        end
    end.

(** [try: body  finally: cleanup] *)
Definition try_finally {A} (body : M A) (cleanup : M unit) : M A :=
  fun rb st =>
    match body rb st with
    | (r, st') =>
        match cleanup rb st' with
        | (Val _, st'') => (r, st'')
        | (Exc e, st'') => (Exc e, st'')
        end
    end.

(** The clause [except Exception as e: ...; return v]. *)
Definition except_Exception {A} (v : M A) (e : exn) : option (M A) :=
  if is_Exception e then Some v else None.

Definition get_conn : M SpotRobotConnection := fun _ st => (Val (conn st), st).

Definition put_conn (c : SpotRobotConnection) : M unit :=
  fun _ st => (Val tt, {| conn := c; trace := trace st; logged := logged st |}).

Definition log (ev : event) (st : State) : State :=
  {| conn := conn st; trace := trace st ++ [ev]; logged := logged st |}.

(** [self.logger.debug(...)] *)
Definition logger_debug (r : LogRecord) : M unit :=
  fun _ st =>
    (Val tt, {| conn := conn st; trace := trace st; logged := logged st ++ [r] |}).

(** A function of the SDK that computes locally: its answer is read
    from the description of the SDK. *)
Definition sdk_local {A B} (f : Robot -> A -> result B) (a : A) : M B :=
  fun rb st => (f rb a, st).

(** [name in names] *)
Definition declares (names : list string) (name : string) : bool :=
  existsb (String.eqb name) names.

(** [RobotCommandBuilder.mobility_params(max_vel_linear=..., max_vel_ang=...)]:
    binding a keyword the function does not declare raises TypeError.
    A builder that declares both keywords is taken to store them. *)
Definition mobility_params (linear angular : num) : M MobilityParams :=
  fun rb st =>
    if forallb (declares (mobility_params_keywords rb))
               ["max_vel_linear"; "max_vel_ang"]%string
    then (Val {| max_vel_linear := linear; max_vel_ang := angular |}, st)
    else (Exc TypeError, st).

(** A call whose result is an object or [None]: returns the step. *)
Definition sdk_call (c : call) : M nat :=
  fun rb st =>
    let n := length (trace st) in
    match raises rb n with
    | Some e => (Exc e, log (Called c (Some e)) st)
    | None => (Val n, log (Called c None) st)
    end.

(** A call whose result is read from the oracle. *)
Definition sdk_query {A} (c : call) (answer : Robot -> nat -> A) : M A :=
  fun rb st =>
    match sdk_call c rb st with
    | (Val n, st') => (Val (answer rb n), st')
    | (Exc e, st') => (Exc e, st')
    end.

(** [obj.attr] raises AttributeError when [obj] is None. *)
Definition attr_of (obj : option handle) : M handle :=
  match obj with
  | Some h => ret h
  | None => raise AttributeError
  end.

(** [l[i]] *)
Definition getitem {A} (l : list A) (i : nat) : M A :=
  match nth_error l i with
  | Some a => ret a
  | None => raise IndexError
  end.

(** [a / n] for an int [n] *)
Definition truediv_int (a : num) (n : Z) : M num :=
  if (n =? 0)%Z then raise ZeroDivisionError else ret (ndiv a (of_int n)).

(** [for item in items: s = body(item, s)] *)
Fixpoint for_in {A S} (items : list A) (body : A -> S -> M S) (s : S) : M S :=
  match items with
  | [] => ret s
  | a :: rest => s' <- body a s ;; for_in rest body s'
  end.

Definition enumerate {A} (l : list A) : list (nat * A) :=
  combine (seq 0 (length l)) l.

(** ** square_movement.py: the waypoint loops *)

Definition square_points (side_length : num) : list (num * num) :=
  [ (of_int 0, of_int 0);
    (side_length, of_int 0);
    (side_length, side_length);
    (of_int 0, side_length);
    (of_int 0, of_int 0) ].

(** Heading at [idx]: look ahead to the next point, or 0 at the end. *)
Definition heading_at (square_points : list (num * num)) (idx : nat) : M num :=
  if idx <? length square_points - 1 then
    next <- getitem square_points (idx + 1) ;;
    this <- getitem square_points idx ;;
    let dx := nsub (fst next) (fst this) in
    next <- getitem square_points (idx + 1) ;;
    this <- getitem square_points idx ;;
    let dy := nsub (snd next) (snd this) in
    ret (atan2 dy dx)
  else
    ret (of_int 0).

(** [walk_square], lines 82-118: builds [trajectory_points]. *)
Definition trajectory_points (vision_T_body : SE3Pose)
    (side_length total_time : num) : M (list (SE2Pose * num)) :=
  let square_points := square_points side_length in
  time_per_segment <- truediv_int total_time (Z.of_nat (length square_points)) ;;
  for_in (enumerate square_points)
    (fun '(idx, (x, y)) trajectory_points =>
       let p := transform_point vision_T_body x y (of_int 0) in
       let x_vision := fst (fst p) in
       let y_vision := snd (fst p) in
       heading <- heading_at square_points idx ;;
       let pose := {| position := {| vec_x := x_vision; vec_y := y_vision |};
                      angle := heading |} in
       let time_at_point := nmul (of_int (Z.of_nat (idx + 1))) time_per_segment in
       let trajectory_points := trajectory_points ++ [(pose, time_at_point)] in
       logger_debug {| point_idx := idx; point_x := x_vision; point_y := y_vision;
                       point_heading := heading; point_time := time_at_point |} ;;
       ret trajectory_points)
    [].

(** [walk_square_trajectory], lines 179-213: builds [traj_points]. *)
Definition traj_points (vision_T_body : SE3Pose)
    (side_length total_time : num) : M (list SE2TrajectoryPoint) :=
  let square_points := square_points side_length in
  time_per_segment <- truediv_int total_time (Z.of_nat (length square_points)) ;;
  for_in (enumerate square_points)
    (fun '(idx, (x, y)) traj_points =>
       let p := transform_point vision_T_body x y (of_int 0) in
       let x_vision := fst (fst p) in
       let y_vision := snd (fst p) in
       heading <- heading_at square_points idx ;;
       let pose := {| position := {| vec_x := x_vision; vec_y := y_vision |};
                      angle := heading |} in
       let time_val := nmul (of_int (Z.of_nat (idx + 1))) time_per_segment in
       duration <- sdk_local seconds_to_duration time_val ;;
       let traj_point := {| pose := pose; time_since_reference := duration |} in
       ret (traj_points ++ [traj_point]))
    [].

(** ** square_movement.py: class SquarePathWalker *)

(** The literal [0.1]: the double nearest to 1/10, which is what the
    correctly rounded quotient of 1 by 10 is. *)
Definition tenth : num := ndiv (of_int 1) (of_int 10).

(** [l[-1]] *)
Definition getitem_last {A} (l : list A) : M A :=
  match l with
  | [] => raise IndexError
  | _ :: _ => getitem l (length l - 1)
  end.

Definition stand_up (self : SquarePathWalker) (timeout_sec : Z) : M bool :=
  try_except
    (sdk_call (blocking_stand timeout_sec) ;;
     ret true)
    (except_Exception (ret false)).

Definition walk_square (self : SquarePathWalker)
    (side_length max_velocity total_time : num) : M bool :=
  try_except
    (attr_of (state_client self) ;;
     sdk_call get_robot_state ;;
     vision_T_body <- sdk_query get_vision_tform_body vision_tform_body ;;
     trajectory_points <- trajectory_points vision_T_body side_length total_time ;;
     command_id <-
       for_in trajectory_points
         (fun '(pose, time_val) _ =>
            mobility_params <- mobility_params max_velocity (of_int 1) ;;
            let cmd :=
              synchro_se2_trajectory_point_command
                (vec_x (position pose)) (vec_y (position pose)) (angle pose)
                VISION_FRAME_NAME mobility_params (of_int 0) in
            attr_of (command_client self) ;;
            now <- sdk_query time_time clock ;;
            command_id <- sdk_query (robot_command cmd (nadd now time_val)) issued_id ;;
            sdk_call (time_sleep tenth) ;;
            ret (Some command_id))
         None ;;
     match command_id with
     | Some id =>
         if (id =? 0)%Z then ret true
         else
           sdk_call (block_for_trajectory_cmd id (nadd total_time (of_int 5))) ;;
           ret true
     | None => ret true
     end)
    (except_Exception (ret false)).

Definition walk_square_trajectory (self : SquarePathWalker)
    (side_length max_velocity total_time : num) : M bool :=
  try_except
    (attr_of (state_client self) ;;
     sdk_call get_robot_state ;;
     vision_T_body <- sdk_query get_vision_tform_body vision_tform_body ;;
     traj_points <- traj_points vision_T_body side_length total_time ;;
     let trajectory := {| points := traj_points |} in
     mobility_params <- mobility_params max_velocity (of_int 1) ;;
     last_point <- getitem_last (points trajectory) ;;
     let cmd :=
       synchro_se2_trajectory_command
         (pose last_point) VISION_FRAME_NAME mobility_params in
     attr_of (command_client self) ;;
     now <- sdk_query time_time clock ;;
     command_id <- sdk_query (robot_command cmd (nadd now total_time)) issued_id ;;
     sdk_call (block_for_trajectory_cmd command_id (nadd total_time (of_int 5))) ;;
     ret true)
    (except_Exception (ret false)).

(** ** robot_connection.py: class SpotRobotConnection *)

(** [__init__] *)
Definition SpotRobotConnection_init (hostname client_name : string)
    (verbose : bool) : SpotRobotConnection :=
  {| hostname := hostname; client_name := client_name; verbose := verbose;
     sdk := None; robot := None; lease_client := None;
     lease_keepalive := None; robot_command_client := None;
     robot_state_client := None; power_client := None |}.

Definition with_sdk (v : option handle) (c : SpotRobotConnection) :=
  {| hostname := hostname c; client_name := client_name c; verbose := verbose c;
     sdk := v; robot := robot c; lease_client := lease_client c;
     lease_keepalive := lease_keepalive c;
     robot_command_client := robot_command_client c;
     robot_state_client := robot_state_client c; power_client := power_client c |}.

Definition with_robot (v : option handle) (c : SpotRobotConnection) :=
  {| hostname := hostname c; client_name := client_name c; verbose := verbose c;
     sdk := sdk c; robot := v; lease_client := lease_client c;
     lease_keepalive := lease_keepalive c;
     robot_command_client := robot_command_client c;
     robot_state_client := robot_state_client c; power_client := power_client c |}.

Definition with_lease_client (v : option handle) (c : SpotRobotConnection) :=
  {| hostname := hostname c; client_name := client_name c; verbose := verbose c;
     sdk := sdk c; robot := robot c; lease_client := v;
     lease_keepalive := lease_keepalive c;
     robot_command_client := robot_command_client c;
     robot_state_client := robot_state_client c; power_client := power_client c |}.

Definition with_lease_keepalive (v : option handle) (c : SpotRobotConnection) :=
  {| hostname := hostname c; client_name := client_name c; verbose := verbose c;
     sdk := sdk c; robot := robot c; lease_client := lease_client c;
     lease_keepalive := v;
     robot_command_client := robot_command_client c;
     robot_state_client := robot_state_client c; power_client := power_client c |}.

Definition with_robot_command_client (v : option handle) (c : SpotRobotConnection) :=
  {| hostname := hostname c; client_name := client_name c; verbose := verbose c;
     sdk := sdk c; robot := robot c; lease_client := lease_client c;
     lease_keepalive := lease_keepalive c;
     robot_command_client := v;
     robot_state_client := robot_state_client c; power_client := power_client c |}.

Definition with_robot_state_client (v : option handle) (c : SpotRobotConnection) :=
  {| hostname := hostname c; client_name := client_name c; verbose := verbose c;
     sdk := sdk c; robot := robot c; lease_client := lease_client c;
     lease_keepalive := lease_keepalive c;
     robot_command_client := robot_command_client c;
     robot_state_client := v; power_client := power_client c |}.

Definition with_power_client (v : option handle) (c : SpotRobotConnection) :=
  {| hostname := hostname c; client_name := client_name c; verbose := verbose c;
     sdk := sdk c; robot := robot c; lease_client := lease_client c;
     lease_keepalive := lease_keepalive c;
     robot_command_client := robot_command_client c;
     robot_state_client := robot_state_client c; power_client := v |}.

(** [self.field = v] *)
Definition assign (upd : SpotRobotConnection -> SpotRobotConnection) : M unit :=
  fun _ st =>
    (Val tt, {| conn := upd (conn st); trace := trace st; logged := logged st |}).

Definition connect : M bool :=
  try_except
    (self <- get_conn ;;
     h <- sdk_call (create_standard_sdk (client_name self)) ;;
     assign (with_sdk (Some h)) ;;
     self <- get_conn ;;
     attr_of (sdk self) ;;
     h <- sdk_call (create_robot (hostname self)) ;;
     assign (with_robot (Some h)) ;;
     ret true)
    (except_Exception (ret false)).

Definition authenticate (username password : string) : M bool :=
  try_except
    (try_except
       (self <- get_conn ;;
        attr_of (robot self) ;;
        sdk_call (robot_authenticate username password) ;;
        ret tt)
       (fun e =>
          if is_InvalidLoginError e
          then Some (sdk_call util_authenticate ;; ret tt)
          else None) ;;
     ret true)
    (except_Exception (ret false)).

Definition setup_clients : M bool :=
  try_except
    (self <- get_conn ;;
     attr_of (robot self) ;;
     c <- sdk_call (ensure_client LeaseClient) ;;
     assign (with_lease_client (Some c)) ;;
     self <- get_conn ;;
     attr_of (robot self) ;;
     c <- sdk_call (ensure_client RobotCommandClient) ;;
     assign (with_robot_command_client (Some c)) ;;
     self <- get_conn ;;
     attr_of (robot self) ;;
     c <- sdk_call (ensure_client RobotStateClient) ;;
     assign (with_robot_state_client (Some c)) ;;
     self <- get_conn ;;
     attr_of (robot self) ;;
     c <- sdk_call (ensure_client PowerClient) ;;
     assign (with_power_client (Some c)) ;;
     ret true)
    (except_Exception (ret false)).

Definition acquire_lease : M bool :=
  try_except
    (k <- sdk_call (LeaseKeepAlive_init true true) ;;
     assign (with_lease_keepalive (Some k)) ;;
     ret true)
    (except_Exception (ret false)).

Definition release_lease : M unit :=
  self <- get_conn ;;
  match lease_keepalive self with
  | Some _ =>
      sdk_call LeaseKeepAlive_exit ;;
      assign (with_lease_keepalive None)
  | None => ret tt
  end.

Definition verify_not_estopped : M bool :=
  self <- get_conn ;;
  attr_of (robot self) ;;
  stopped <- sdk_query is_estopped estopped ;;
  if stopped then ret false else ret true.

Definition power_on (timeout_sec : Z) : M bool :=
  try_except
    (self <- get_conn ;;
     attr_of (robot self) ;;
     sdk_call (robot_power_on timeout_sec) ;;
     ret true)
    (except_Exception (ret false)).

Definition time_sync : M bool :=
  try_except
    (self <- get_conn ;;
     attr_of (robot self) ;;
     sdk_call wait_for_sync ;;
     ret true)
    (except_Exception (ret false)).

Definition disconnect : M unit :=
  (fun _ st => (Val tt, log Entered_disconnect st)) ;;
  release_lease ;;
  self <- get_conn ;;
  match robot self with
  | Some _ => sdk_call robot_shutdown ;; ret tt
  | None => ret tt
  end.

(** ** square_path_example.py *)

Definition main (hostname : string) (side_length max_velocity : num)
    (verbose : bool) : M Z :=
  put_conn (SpotRobotConnection_init hostname "SpotClient" verbose) ;;
  ok <- connect ;;
  if negb ok then ret 1%Z else
  ok <- authenticate "admin" "password" ;;
  if negb ok then ret 1%Z else
  ok <- setup_clients ;;
  if negb ok then ret 1%Z else
  ok <- acquire_lease ;;
  if negb ok then ret 1%Z else
  try_finally
    (try_except
       (ok <- verify_not_estopped ;;
        if negb ok then ret 1%Z else
        ok <- power_on 20 ;;
        if negb ok then ret 1%Z else
        ok <- time_sync ;;
        if negb ok then ret 1%Z else
        robot_conn <- get_conn ;;
        let walker := {| command_client := robot_command_client robot_conn;
                         state_client := robot_state_client robot_conn |} in
        ok <- stand_up walker 10 ;;
        if negb ok then ret 1%Z else
        ok <- walk_square walker side_length max_velocity (of_int 20) ;;
        if negb ok then ret 1%Z else
        ret 0%Z)
       (fun e =>
          if is_KeyboardInterrupt e then Some (ret 1%Z)
          else if is_Exception e then Some (ret 1%Z)
          else None))
    disconnect.

(** The namespace returned by [parse_arguments]. *)
Record Args : Type := {
  args_hostname : string;
  args_side_length : num;
  args_velocity : num;
  args_verbose : bool
}.

(** What [parser.parse_args()] does with the command line: it returns
    the namespace, or it ends the process itself, with status 2 after a
    usage error (a missing hostname, an unknown option, a value that
    [float] rejects) and with status 0 after printing the help for
    [-h] or [--help]. *)
Inductive parse_outcome : Type :=
| Namespace (args : Args)
| Usage_error
| Help_requested.

(** The [if __name__ == '__main__':] block, given the outcome of
    [parse_arguments()]; the value is the argument of [sys.exit], called
    by the block or, before it, by argparse. *)
Definition dunder_main (parse_arguments : parse_outcome) : M Z :=
  match parse_arguments with
  | Usage_error => ret 2%Z
  | Help_requested => ret 0%Z
  | Namespace args =>
      if nleb (args_side_length args) (of_int 0) then ret 1%Z
      else if nleb (args_velocity args) (of_int 0)
              || nltb (of_int 2) (args_velocity args) then ret 1%Z
      else main (args_hostname args) (args_side_length args)
                (args_velocity args) (args_verbose args)
  end.

(** How the interpreter ends: by [sys.exit(code)], with status 1 after
    an uncaught Exception, or by the default SIGINT action after an
    uncaught KeyboardInterrupt. *)
Inductive status : Type :=
| Exited (code : Z)
| Killed_by_SIGINT.

Definition exit_status (r : result Z) : status :=
  match r with
  | Val code => Exited code
  | Exc e => if is_Exception e then Exited 1 else Killed_by_SIGINT
  end.

(** ** Observations on a run *)

Definition initial_state : State :=
  {| conn := SpotRobotConnection_init EmptyString EmptyString false;
     trace := [];
     logged := [] |}.

Definition is_Entered_disconnect (ev : event) : bool :=
  match ev with
  | Entered_disconnect => true
  | _ => false
  end.

(** Number of invocations of [disconnect] recorded in a trace. *)
Definition disconnect_count (tr : list event) : nat :=
  length (filter is_Entered_disconnect tr).

(** The commands the device received, in order. *)
Fixpoint submitted (tr : list event) : list (RobotCommand * num) :=
  match tr with
  | [] => []
  | Called (robot_command cmd end_time) None :: tr' =>
      (cmd, end_time) :: submitted tr'
  | _ :: tr' => submitted tr'
  end.

End Model.

Arguments Vec2 num : clear implicits.
Arguments SE2Pose num : clear implicits.
Arguments LogRecord num : clear implicits.
Arguments parse_outcome num : clear implicits.
Arguments SE2TrajectoryPoint num : clear implicits.
Arguments SE2Trajectory num : clear implicits.
Arguments SE3Pose num : clear implicits.
Arguments MobilityParams num : clear implicits.
Arguments RobotCommand num : clear implicits.
Arguments call num : clear implicits.
Arguments event num : clear implicits.
Arguments Robot num : clear implicits.
Arguments State num : clear implicits.
Arguments Args num : clear implicits.
Arguments M num A : clear implicits.

(** ** Instances of [Numeric] *)

(** [float(z)] for a Python int [z] below 2^63 in absolute value. *)
Definition float_of_Z (z : Z) : float :=
  match z with
  | Z0 => 0%float
  | Zpos _ => PrimFloat.of_uint63 (Uint63.of_Z z)
  | Zneg p => PrimFloat.opp (PrimFloat.of_uint63 (Uint63.of_Z (Zpos p)))
  end.

(** CPython floats: IEEE binary64 with round-to-nearest-even.
    [math.atan2] comes from the C library and is a parameter. *)
Definition binary64 (math_atan2 : float -> float -> float) : Numeric float :=
  {| of_int := float_of_Z;
     nadd := PrimFloat.add;
     nsub := PrimFloat.sub;
     nmul := PrimFloat.mul;
     ndiv := PrimFloat.div;
     nleb := PrimFloat.leb;
     nltb := PrimFloat.ltb;
     atan2 := math_atan2 |}.

(** [math.atan2] on the coordinate axes, where C99 (Annex F.9.1.4) fixes
    its value: these are the only arguments a square with a finite
    positive side produces.  Elsewhere this table has no entry and
    yields NaN.  It is used only to run the model on concrete inputs. *)
Definition atan2_axes (y x : float) : float :=
  let pi := 0x1.921fb54442d18p+1%float in
  let half_pi := 0x1.921fb54442d18p+0%float in
  if (PrimFloat.eqb y 0 && PrimFloat.ltb 0 x)%bool then y
  else if (PrimFloat.eqb x 0 && PrimFloat.ltb 0 y)%bool then half_pi
  else if (PrimFloat.eqb x 0 && PrimFloat.ltb y 0)%bool then PrimFloat.opp half_pi
  else if (PrimFloat.eqb y 0 && PrimFloat.ltb x 0)%bool then
    (if PrimFloat.ltb (PrimFloat.div 1 y) 0 then PrimFloat.opp pi else pi)
  else nan.

Definition Rleb (a b : R) : bool := if Rle_dec a b then true else false.

Definition Rltb (a b : R) : bool := if Rlt_dec a b then true else false.

(** The two-argument arctangent on the reals. *)
Definition R_atan2 (y x : R) : R :=
  if Rlt_dec 0 x then atan (y / x)
  else if Rlt_dec x 0 then
    (if Rle_dec 0 y then atan (y / x) + PI else atan (y / x) - PI)%R
  else if Rlt_dec 0 y then (PI / 2)%R
  else if Rlt_dec y 0 then (- (PI / 2))%R
  else 0%R.

(** Exact arithmetic. *)
Definition exact : Numeric R :=
  {| of_int := IZR;
     nadd := Rplus;
     nsub := Rminus;
     nmul := Rmult;
     ndiv := Rdiv;
     nleb := Rleb;
     nltb := Rltb;
     atan2 := R_atan2 |}.

(** ** The released SDK *)

(** The keyword parameters of [RobotCommandBuilder.mobility_params] in
    the released bosdyn-client: [max_vel_linear] and [max_vel_ang] are
    not among them (velocity limits are set through the [vel_limit]
    field of the message the builder returns). *)
Definition released_keywords : list string :=
  [ "body_height"; "footprint_R_body"; "locomotion_hint"; "stair_hint";
    "external_force_params"; "stairs_mode" ]%string.

(** [int(x)] for a float: truncation towards zero; NaN and the
    infinities have no integer value. *)
Definition int_of_float (x : float) : result Z :=
  match Prim2SF x with
  | S754_nan => Exc ValueError
  | S754_infinity _ => Exc OverflowError
  | S754_zero _ => Val 0%Z
  | S754_finite s m e =>
      let a := if (0 <=? e)%Z then Z.shiftl (Zpos m) e
               else Z.shiftr (Zpos m) (- e) in
      Val (if s then (- a)%Z else a)
  end.

Definition NSEC_PER_SEC : Z := 10 ^ 9.

(** [bosdyn.util.seconds_to_duration] on floats:
    [duration_seconds = int(seconds)],
    [duration_nanos = int((seconds - duration_seconds) * NSEC_PER_SEC)],
    [Duration(seconds=duration_seconds, nanos=duration_nanos)].  The
    message constructor refuses a [seconds] outside int64; nothing
    observable precedes that refusal, so the range is tested before the
    nanoseconds are computed, where [float_of_Z] applies. *)
Definition bosdyn_seconds_to_duration (secs : float) : result Duration :=
  match int_of_float secs with
  | Exc e => Exc e
  | Val duration_seconds =>
      if ((- 2 ^ 63 <=? duration_seconds) && (duration_seconds <? 2 ^ 63))%Z then
        match int_of_float
                (PrimFloat.mul (PrimFloat.sub secs (float_of_Z duration_seconds))
                               (float_of_Z NSEC_PER_SEC)) with
        | Exc e => Exc e
        | Val duration_nanos =>
            Val {| seconds := duration_seconds; nanos := duration_nanos |}
        end
      else Exc ValueError
  end.

(** [int(x)] on the reals. *)
Definition int_of_R (x : R) : Z :=
  if Rle_dec 0 x then Int_part x else (- Int_part (- x))%Z.

(** The same function in exact arithmetic. *)
Definition exact_seconds_to_duration (secs : R) : result Duration :=
  let duration_seconds := int_of_R secs in
  let duration_nanos :=
    int_of_R ((secs - IZR duration_seconds) * IZR NSEC_PER_SEC) in
  if ((- 2 ^ 63 <=? duration_seconds) && (duration_seconds <? 2 ^ 63))%Z
  then Val {| seconds := duration_seconds; nanos := duration_nanos |}
  else Exc ValueError.

(** ** Concrete poses, robots and arguments *)

(** The pose whose [transform_point] is the identity. *)
Definition identity_pose {num : Type} : SE3Pose num :=
  {| transform_point := fun x y z => (x, y, z) |}.

(** A robot on which every call succeeds, behind the released SDK. *)
Definition cooperative_robot : Robot float :=
  {| raises := fun _ => None;
     estopped := fun _ => false;
     vision_tform_body := fun _ => identity_pose;
     clock := fun _ => 100%float;
     issued_id := fun n => Z.of_nat (S n);
     mobility_params_keywords := released_keywords;
     seconds_to_duration := bosdyn_seconds_to_duration |}.

(** The same robot behind a builder that also declares the two velocity
    keywords the program passes.  No released SDK has such a builder;
    it serves to run the code that follows the builder call. *)
Definition with_velocity_keywords {num : Type} (rb : Robot num) : Robot num :=
  {| raises := raises rb;
     estopped := estopped rb;
     vision_tform_body := vision_tform_body rb;
     clock := clock rb;
     issued_id := issued_id rb;
     mobility_params_keywords :=
       ("max_vel_linear" :: "max_vel_ang" :: mobility_params_keywords rb)%string;
     seconds_to_duration := seconds_to_duration rb |}.

(** A robot on which every call succeeds, in exact arithmetic. *)
Definition ideal_robot : Robot R :=
  {| raises := fun _ => None;
     estopped := fun _ => false;
     vision_tform_body := fun _ => identity_pose;
     clock := fun _ => 0%R;
     issued_id := fun _ => 1%Z;
     mobility_params_keywords := released_keywords;
     seconds_to_duration := exact_seconds_to_duration |}.

(** A robot that rejects the credentials, also at the interactive
    prompt: calls 2 ([robot.authenticate]) and 3
    ([bosdyn.client.util.authenticate]) raise InvalidLoginError. *)
Definition rejecting_robot : Robot float :=
  {| raises := fun n => if (2 <=? n) && (n <=? 3) then Some InvalidLoginError else None;
     estopped := fun _ => false;
     vision_tform_body := fun _ => identity_pose;
     clock := fun _ => 100%float;
     issued_id := fun n => Z.of_nat (S n);
     mobility_params_keywords := released_keywords;
     seconds_to_duration := bosdyn_seconds_to_duration |}.

(** A robot that rejects the default credentials once and accepts the
    interactive login. *)
Definition relogin_robot : Robot float :=
  {| raises := fun n => if n =? 2 then Some InvalidLoginError else None;
     estopped := fun _ => false;
     vision_tform_body := fun _ => identity_pose;
     clock := fun _ => 100%float;
     issued_id := fun n => Z.of_nat (S n);
     mobility_params_keywords := released_keywords;
     seconds_to_duration := bosdyn_seconds_to_duration |}.

(** A robot on which the [k]-th call is interrupted by the user. *)
Definition interrupted_robot (k : nat) : Robot float :=
  {| raises := fun n => if n =? k then Some KeyboardInterrupt else None;
     estopped := fun _ => false;
     vision_tform_body := fun _ => identity_pose;
     clock := fun _ => 100%float;
     issued_id := fun n => Z.of_nat (S n);
     mobility_params_keywords := released_keywords;
     seconds_to_duration := bosdyn_seconds_to_duration |}.

(** A robot on which the [k]-th call fails with an SDK error. *)
Definition failing_robot (k : nat) : Robot float :=
  {| raises := fun n => if n =? k then Some (SdkError 0) else None;
     estopped := fun _ => false;
     vision_tform_body := fun _ => identity_pose;
     clock := fun _ => 100%float;
     issued_id := fun n => Z.of_nat (S n);
     mobility_params_keywords := released_keywords;
     seconds_to_duration := bosdyn_seconds_to_duration |}.

(** ** Closed forms used in the statements *)

Section ClosedForms.

Context {num : Type} {NUM : Numeric num}.

(** A body-frame point carried into the vision frame by [T]. *)
Definition to_vision (T : SE3Pose num) (p : num * num) : Vec2 num :=
  let q := transform_point T (fst p) (snd p) (of_int 0) in
  {| vec_x := fst (fst q); vec_y := snd (fst q) |}.

Definition positions (plan : list (SE2Pose num * num)) : list (Vec2 num) :=
  map (fun wp => position (fst wp)) plan.


Definition deadlines (plan : list (SE2Pose num * num)) : list num :=
  map snd plan.

(** The trajectory points made of a plan by converting its deadlines in
    order with [to_duration]; the first conversion that raises ends
    it. *)
Fixpoint as_trajectory (to_duration : num -> result Duration)
    (plan : list (SE2Pose num * num)) : result (list (SE2TrajectoryPoint num)) :=
  match plan with
  | [] => Val []
  | (p, d) :: rest =>
      match to_duration d with
      | Exc e => Exc e
      | Val dur =>
          match as_trajectory to_duration rest with
          | Exc e => Exc e
          | Val pts => Val ({| pose := p; time_since_reference := dur |} :: pts)
          end
      end
  end.

(** The records [logger.debug] receives for a plan: one per waypoint,
    with its index. *)
Definition point_records (plan : list (SE2Pose num * num)) : list (LogRecord num) :=
  map (fun '(idx, (p, d)) =>
         {| point_idx := idx; point_x := vec_x (position p);
            point_y := vec_y (position p); point_heading := angle p;
            point_time := d |})
      (enumerate plan).

(** The state after [records] were handed to the logger. *)
Definition with_logged (records : list (LogRecord num)) (st : State num) : State num :=
  {| conn := conn st; trace := trace st; logged := logged st ++ records |}.

Definition is_raise (ev : event num) : bool :=
  match ev with
  | Called _ (Some _) => true
  | _ => false
  end.

Definition is_lease_acquired (ev : event num) : bool :=
  match ev with
  | Called (LeaseKeepAlive_init _ _) None => true
  | _ => false
  end.

(** [l[0] < l[1] < ...], with the program's own [<]. *)
Fixpoint increasingb (l : list num) : bool :=
  match l with
  | a :: (b :: _) as rest => nltb a b && increasingb rest
  | _ => true
  end.

(** The five waypoints of the square, written out. *)
Definition square_plan (T : SE3Pose num) (L t : num) : list (SE2Pose num * num) :=
  let o := of_int 0 in
  let seg := ndiv t (of_int 5) in
  [ ({| position := to_vision T (o, o); angle := atan2 (nsub o o) (nsub L o) |},
     nmul (of_int 1) seg);
    ({| position := to_vision T (L, o); angle := atan2 (nsub L o) (nsub L L) |},
     nmul (of_int 2) seg);
    ({| position := to_vision T (L, L); angle := atan2 (nsub L L) (nsub o L) |},
     nmul (of_int 3) seg);
    ({| position := to_vision T (o, L); angle := atan2 (nsub o L) (nsub o o) |},
     nmul (of_int 4) seg);
    ({| position := to_vision T (o, o); angle := o |},
     nmul (of_int 5) seg) ].

End ClosedForms.

(** [l[0] < l[1] < ...] on the reals. *)
Fixpoint Rincreasing (l : list R) : Prop :=
  match l with
  | a :: (b :: _) as rest => (a < b)%R /\ Rincreasing rest
  | _ => True
  end.

(** ** Vocabulary of the statements about effects *)

Section Vocabulary.

Context {num : Type} {NUM : Numeric num}.

(** [m] leaves the observation [obs] of the state as it found it,
    whatever the robot answers and however [m] ends. *)
Definition keeps {X A : Type} (obs : State num -> X) (m : M num A) : Prop :=
  forall rb st, obs (snd (m rb st)) = obs st.

(** The exceptions raised by calls, in the order of the trace. *)
Definition raised (tr : list (event num)) : list (event num) :=
  filter is_raise tr.

(** When [m] returns normally, no call it made has raised. *)
Definition clean {A : Type} (m : M num A) : Prop :=
  forall rb st a st',
    m rb st = (Val a, st') -> raised (trace st') = raised (trace st).

(** [op] never lets an Exception escape, and it returns True only if
    no call it made has raised. *)
Definition guarded (op : M num bool) : Prop :=
  forall rb st,
    match op rb st with
    | (Val true, st') => raised (trace st') = raised (trace st)
    | (Val false, _) => True
    | (Exc e, _) => is_Exception e = false
    end.

(** The same, except that a call to [robot.authenticate] rejected with
    InvalidLoginError is allowed before a True result. *)
Definition guarded_with_relogin (username password : string)
    (op : M num bool) : Prop :=
  forall rb st,
    match op rb st with
    | (Val true, st') =>
        raised (trace st') = raised (trace st) \/
        raised (trace st') =
          raised (trace st) ++
          [Called (robot_authenticate username password) (Some InvalidLoginError)]
    | (Val false, _) => True
    | (Exc e, _) => is_Exception e = false
    end.

Definition disconnects (st : State num) : list (event num) :=
  filter is_Entered_disconnect (trace st).

Definition leases (st : State num) : list (event num) :=
  filter is_lease_acquired (trace st).

Definition held_lease (st : State num) : option handle :=
  lease_keepalive (conn st).

End Vocabulary.

(** The double-precision instance used to run the model. *)
Definition F : Numeric float := binary64 atan2_axes.

(** The state [main] is in once the lease has been acquired. *)
Definition leased_state : State float :=
  {| conn :=
       {| hostname := "192.168.1.20"; client_name := "SpotClient";
          verbose := false;
          sdk := Some 0; robot := Some 1; lease_client := Some 3;
          lease_keepalive := Some 7; robot_command_client := Some 4;
          robot_state_client := Some 5; power_client := Some 6 |};
     trace := [];
     logged := [] |}.

Definition ready_walker : SquarePathWalker :=
  {| command_client := Some 4; state_client := Some 5 |}.

(** [--velocity nan]: [float('nan')] is what argparse's [type=float]
    returns for it. *)
Definition nan_velocity_args : Args float :=
  {| args_hostname := "192.168.1.20";
     args_side_length := 1%float;
     args_velocity := nan;
     args_verbose := false |}.

(** ** Further vocabulary: what a run has sent and done *)

Section RunVocabulary.

Context {num : Type} {NUM : Numeric num}.

(** The commands the device has received so far. *)
Definition sent (st : State num) : list (RobotCommand num * num) :=
  submitted (trace st).

(** Calls that power the motors or move the robot. *)
Definition is_motion (ev : event num) : bool :=
  match ev with
  | Called (robot_power_on _) _ => true
  | Called (blocking_stand _) _ => true
  | Called (robot_command _ _) _ => true
  | _ => false
  end.

Definition motions (st : State num) : list (event num) :=
  filter is_motion (trace st).

(** [m] only appends to the trace. *)
Definition extends {A : Type} (m : M num A) : Prop :=
  forall rb st, exists evs, trace (snd (m rb st)) = trace st ++ evs.


End RunVocabulary.

(** ** The two parts of [main] *)

Section MainParts.

Context {num : Type} {NUM : Numeric num}.

(** Steps 1 to 4 of [main], which precede its [try] statement: True
    when all four succeeded. *)
Definition main_preamble (hostname : string) (verbose : bool) : M num bool :=
  bind (put_conn (SpotRobotConnection_init hostname "SpotClient" verbose)) (fun _ =>
  bind connect (fun ok =>
  if negb ok then ret false else
  bind (authenticate "admin" "password") (fun ok =>
  if negb ok then ret false else
  bind setup_clients (fun ok =>
  if negb ok then ret false else
  bind acquire_lease (fun ok =>
  if negb ok then ret false else ret true))))).

(** The [try] ... [except] part of [main], steps 5 to 8, without its
    [finally] clause. *)
Definition main_block (side_length max_velocity : num) : M num Z :=
  try_except
    (bind verify_not_estopped (fun ok =>
     if negb ok then ret 1%Z else
     bind (power_on 20) (fun ok =>
     if negb ok then ret 1%Z else
     bind time_sync (fun ok =>
     if negb ok then ret 1%Z else
     bind get_conn (fun robot_conn =>
     let walker := {| command_client := robot_command_client robot_conn;
                      state_client := robot_state_client robot_conn |} in
     bind (stand_up walker 10) (fun ok =>
     if negb ok then ret 1%Z else
     bind (walk_square walker side_length max_velocity (of_int 20)) (fun ok =>
     if negb ok then ret 1%Z else
     ret 0%Z)))))))
    (fun e =>
       if is_KeyboardInterrupt e then Some (ret 1%Z)
       else if is_Exception e then Some (ret 1%Z)
       else None).

End MainParts.

(** A robot whose calls succeed but which reports an emergency stop. *)
Definition estopped_robot : Robot float :=
  {| raises := fun _ => None;
     estopped := fun _ => true;
     vision_tform_body := fun _ => identity_pose;
     clock := fun _ => 100%float;
     issued_id := fun n => Z.of_nat (S n);
     mobility_params_keywords := released_keywords;
     seconds_to_duration := bosdyn_seconds_to_duration |}.

(** Valid arguments: side 1.0 m, velocity 0.5 m/s. *)
Definition default_args : Args float :=
  {| args_hostname := "192.168.1.20";
     args_side_length := 1%float;
     args_velocity := 0.5%float;
     args_verbose := false |}.

(** [--side-length 0]. *)
Definition zero_side_args : Args float :=
  {| args_hostname := "192.168.1.20";
     args_side_length := 0%float;
     args_velocity := 0.5%float;
     args_verbose := false |}.

(** * Properties of the waypoint loops *)

Section Plan.

Context {num : Type} {NUM : Numeric num}.

Variables (T : SE3Pose num) (L t : num).

Lemma trajectory_points_run (rb : Robot num) (st : State num) :
  trajectory_points T L t rb st =
  (Val (square_plan T L t), with_logged (point_records (square_plan T L t)) st).
Proof.
  unfold trajectory_points, with_logged, bind, truediv_int, logger_debug, ret.
  cbn. rewrite <- !app_assoc. reflexivity.
Qed.

Lemma traj_points_run (rb : Robot num) (st : State num) :
  traj_points T L t rb st =
  (as_trajectory (seconds_to_duration rb) (square_plan T L t), st).
Proof.
  unfold traj_points, truediv_int, sdk_local.
  cbv [for_in enumerate combine seq length square_points bind ret heading_at
       getitem nth_error Nat.ltb Nat.leb Nat.sub Nat.add Z.of_nat Z.eqb
       Pos.of_succ_nat Pos.succ square_plan as_trajectory app fst snd to_vision].
  repeat (match goal with
          | |- context [seconds_to_duration rb ?d] =>
              destruct (seconds_to_duration rb d); try reflexivity
          end).
Qed.

Lemma as_trajectory_poses (f : num -> result Duration)
    (plan : list (SE2Pose num * num)) (trj : list (SE2TrajectoryPoint num)) :
  as_trajectory f plan = Val trj ->
  map (fun tp => pose tp) trj = map fst plan /\
  Forall2 (fun tp wp => f (snd wp) = Val (time_since_reference tp)) trj plan.
Proof.
  revert trj. induction plan as [|[p d] rest IH]; intros trj; cbn.
  - intros E. injection E as <-. split; constructor.
  - destruct (f d) as [dur|e] eqn:Ed; [|discriminate].
    destruct (as_trajectory f rest) as [pts|e]; [|discriminate].
    intros E. injection E as <-.
    destruct (IH pts eq_refl) as [IH1 IH2]. cbn. split.
    + f_equal. exact IH1.
    + constructor; [exact Ed | exact IH2].
Qed.

Lemma as_trajectory_raises (f : num -> result Duration)
    (plan : list (SE2Pose num * num)) (e : exn) :
  as_trajectory f plan = Exc e ->
  exists d, In d (deadlines plan) /\ f d = Exc e.
Proof.
  induction plan as [|[p d] rest IH]; cbn; [discriminate|].
  destruct (f d) as [dur|e'] eqn:Ed.
  - destruct (as_trajectory f rest) as [pts|e']; [discriminate|].
    intros E. injection E as ->.
    destruct (IH eq_refl) as [d' [Hin Hd']]. exists d'. auto.
  - intros E. injection E as ->. exists d. auto.
Qed.

(** C1.  The waypoint loop of [walk_square] returns, for every side
    length [L] and so for every positive one, exactly 5 waypoints; their
    positions are the images under the current pose's transform of the
    body-frame points (0,0), (L,0), (L,L), (0,L), (0,0); the first and
    the last position are the same point.  The loop of
    [walk_square_trajectory] computes the same five positions: it
    returns 5 points at these positions, unless
    [seconds_to_duration] raises on one of the deadlines, which is then
    what the loop raises. *)
Theorem square_plan_five_closed (rb : Robot num) (st : State num) :
  exists plan,
    trajectory_points T L t rb st = (Val plan, with_logged (point_records plan) st) /\
    traj_points T L t rb st = (as_trajectory (seconds_to_duration rb) plan, st) /\
    length plan = 5 /\
    positions plan =
      map (to_vision T)
          [ (of_int 0, of_int 0); (L, of_int 0); (L, L); (of_int 0, L);
            (of_int 0, of_int 0) ] /\
    nth_error (positions plan) 0 = Some (to_vision T (of_int 0, of_int 0)) /\
    nth_error (positions plan) 4 = Some (to_vision T (of_int 0, of_int 0)) /\
    match fst (traj_points T L t rb st) with
    | Val trj =>
        length trj = 5 /\
        map (fun tp => position (pose tp)) trj = positions plan
    | Exc e =>
        exists d, In d (deadlines plan) /\ seconds_to_duration rb d = Exc e
    end.
Proof.
  exists (square_plan T L t).
  split; [apply trajectory_points_run|].
  split; [apply traj_points_run|].
  do 4 (split; [reflexivity|]).
  rewrite traj_points_run. cbn [fst].
  destruct (as_trajectory (seconds_to_duration rb) (square_plan T L t))
    as [trj|e] eqn:E.
  - apply as_trajectory_poses in E. destruct E as [E _]. split.
    + rewrite <- (length_map (fun tp => pose tp)), E, length_map. reflexivity.
    + unfold positions. rewrite <- (map_map fst (fun p => position p)), <- E.
      rewrite map_map. reflexivity.
  - apply as_trajectory_raises in E. exact E.
Qed.


(** C6, as amended.  Two runs of the waypoint loop on the same pose,
    side length and total time return the same plan whatever the two
    robots and the two program states are; neither run makes a call or
    touches the connection.  The loop of [walk_square] is not free of
    output: each run hands one record per waypoint to [logger.debug],
    the same five records in both runs.  The loop of
    [walk_square_trajectory] changes nothing; its result is decided by
    what [seconds_to_duration] answers on the five deadlines. *)
Theorem plan_deterministic_logs_only (rb1 rb2 : Robot num) (st1 st2 : State num) :
  exists plan,
    fst (trajectory_points T L t rb1 st1) = Val plan /\
    fst (trajectory_points T L t rb2 st2) = Val plan /\
    (forall rb st,
        let st' := snd (trajectory_points T L t rb st) in
        conn st' = conn st /\
        trace st' = trace st /\
        logged st' = logged st ++ point_records plan) /\
    length (point_records plan) = 5 /\
    (forall rb st,
        traj_points T L t rb st =
        (as_trajectory (seconds_to_duration rb) plan, st)) /\
    ((forall d, In d (deadlines plan) ->
                seconds_to_duration rb1 d = seconds_to_duration rb2 d) ->
     fst (traj_points T L t rb1 st1) = fst (traj_points T L t rb2 st2)).
Proof.
  exists (square_plan T L t).
  rewrite !trajectory_points_run. cbn [fst].
  split; [reflexivity|]. split; [reflexivity|].
  split; [intros rb st; rewrite trajectory_points_run; repeat split; reflexivity|].
  split; [reflexivity|].
  split; [intros rb st; apply traj_points_run|].
  intros H. rewrite !traj_points_run. cbn [fst].
  revert H. generalize (square_plan T L t). intros plan H.
  induction plan as [|[p d] rest IH]; [reflexivity|].
  cbn [as_trajectory]. rewrite (H d) by (left; reflexivity).
  rewrite IH; [reflexivity|].
  intros d' Hd'. apply H. right. exact Hd'.
Qed.

End Plan.

(** Deadlines of the plan in binary64 for [total_time = 20.0]. *)
Lemma deadlines_binary64_20 (a2 : float -> float -> float)
    (T : SE3Pose float) (L : float) :
  deadlines (square_plan (NUM := binary64 a2) T L 20%float) =
  [4; 8; 12; 16; 20]%float.
Proof. reflexivity. Qed.

(** Deadlines of the plan in exact arithmetic. *)
Lemma deadlines_exact (T : SE3Pose R) (L t : R) :
  deadlines (square_plan (NUM := exact) T L t) =
  [1 * (t / 5); 2 * (t / 5); 3 * (t / 5); 4 * (t / 5); 5 * (t / 5)]%R.
Proof. reflexivity. Qed.

(** C3, as amended.  In exact arithmetic and for every positive
    [total_time], waypoint i carries the deadline
    (i+1) * total_time / 5, the five deadlines are strictly increasing
    and the last one is [total_time]; in binary64, for
    [total_time = 20.0] the deadlines are 4.0, 8.0, 12.0, 16.0, 20.0. *)
Theorem deadlines_even_split :
  (forall (T : SE3Pose R) (L t : R) (rb : Robot R) (st : State R),
      (0 < t)%R ->
      exists plan,
        trajectory_points (NUM := exact) T L t rb st =
          (Val plan, with_logged (point_records plan) st) /\
        Forall
          (fun i =>
             nth_error (deadlines plan) i =
               Some (IZR (Z.of_nat (i + 1)) * t / 5)%R)
          [0; 1; 2; 3; 4] /\
        Rincreasing (deadlines plan) /\
        nth_error (deadlines plan) 4 = Some t) /\
  (forall (a2 : float -> float -> float) (T : SE3Pose float) (L : float)
          (rb : Robot float) (st : State float),
      exists plan,
        trajectory_points (NUM := binary64 a2) T L 20%float rb st =
          (Val plan, with_logged (point_records plan) st) /\
        deadlines plan = [4; 8; 12; 16; 20]%float /\
        increasingb (NUM := binary64 a2) (deadlines plan) = true).
Proof.
  split.
  - intros T L t rb st Ht.
    exists (square_plan (NUM := exact) T L t).
    split; [apply trajectory_points_run|].
    rewrite deadlines_exact.
    split.
    + repeat constructor; cbn [nth_error Z.of_nat Nat.add Pos.of_succ_nat Pos.succ];
        f_equal; lra.
    + split.
      * cbn [Rincreasing]. repeat split; lra.
      * cbn [nth_error]. f_equal. lra.
  - intros a2 T L rb st.
    exists (square_plan (NUM := binary64 a2) T L 20%float).
    split; [apply trajectory_points_run|].
    rewrite deadlines_binary64_20. split; reflexivity.
Qed.

Lemma deadlines_even_split_witness :
  exists plan,
    trajectory_points (NUM := exact) identity_pose 1%R 20%R
      ideal_robot initial_state =
      (Val plan, with_logged (point_records plan) initial_state) /\
    Forall
      (fun i =>
         nth_error (deadlines plan) i =
           Some (IZR (Z.of_nat (i + 1)) * 20 / 5)%R)
      [0; 1; 2; 3; 4] /\
    Rincreasing (deadlines plan) /\
    nth_error (deadlines plan) 4 = Some 20%R.
Proof.
  apply (proj1 deadlines_even_split). lra.
Defined.

(** C3 as stated fails: with [total_time = 0.0] all five deadlines are
    0.0, so they are not strictly increasing. *)
Lemma deadlines_not_increasing_at_zero :
  exists plan,
    trajectory_points (NUM := binary64 atan2_axes) identity_pose 1%float 0%float
      cooperative_robot initial_state =
      (Val plan, with_logged (point_records plan) initial_state) /\
    deadlines plan = [0; 0; 0; 0; 0]%float /\
    increasingb (NUM := binary64 atan2_axes) (deadlines plan) = false.
Proof.
  eexists. split; [apply trajectory_points_run|]. split; reflexivity.
Qed.

(** A positive [total_time] is not enough in binary64: the smallest
    positive double divided by 5 rounds to zero. *)
Lemma deadlines_collapse_subnormal (a2 : float -> float -> float)
    (T : SE3Pose float) (L : float) :
  PrimFloat.ltb 0 0x1p-1074 = true /\
  deadlines (square_plan (NUM := binary64 a2) T L 0x1p-1074%float) =
  [0; 0; 0; 0; 0]%float.
Proof. split; reflexivity. Qed.

(** * Reasoning about effects *)

Section Effects.

Context {num : Type} {NUM : Numeric num}.

Section Keeps.

Context {X : Type} (obs : State num -> X).

Lemma keeps_ret {A} (a : A) : keeps obs (ret a).
Proof. intros rb st. reflexivity. Qed.

Lemma keeps_raise {A} (e : exn) : keeps obs (raise (A := A) e).
Proof. intros rb st. reflexivity. Qed.

Lemma keeps_get_conn : keeps obs get_conn.
Proof. intros rb st. reflexivity. Qed.

Lemma keeps_bind {A B} (m : M num A) (k : A -> M num B) :
  keeps obs m -> (forall a, keeps obs (k a)) -> keeps obs (bind m k).
Proof.
  intros Hm Hk rb st. unfold bind.
  specialize (Hm rb st).
  destruct (m rb st) as [[a|e] st1]; cbn in *.
  - rewrite Hk. exact Hm.
  - exact Hm.
Qed.

Lemma keeps_try_except {A} (body : M num A) (handler : exn -> option (M num A)) :
  keeps obs body ->
  (forall e h, handler e = Some h -> keeps obs h) ->
  keeps obs (try_except body handler).
Proof.
  intros Hb Hh rb st. unfold try_except.
  specialize (Hb rb st).
  destruct (body rb st) as [[a|e] st1]; cbn in *.
  - exact Hb.
  - destruct (handler e) as [h|] eqn:E; cbn.
    + rewrite (Hh e h E). exact Hb.
    + exact Hb.
Qed.

Lemma keeps_guard {A} (body v : M num A) :
  keeps obs body -> keeps obs v ->
  keeps obs (try_except body (except_Exception v)).
Proof.
  intros Hb Hv. apply keeps_try_except; [exact Hb|].
  intros e h. unfold except_Exception.
  destruct (is_Exception e); [|discriminate].
  intros E. injection E as <-. exact Hv.
Qed.

Lemma keeps_try_finally {A} (body : M num A) (cleanup : M num unit) :
  keeps obs body -> keeps obs cleanup -> keeps obs (try_finally body cleanup).
Proof.
  intros Hb Hc rb st. unfold try_finally.
  specialize (Hb rb st).
  destruct (body rb st) as [r st1]; cbn in *.
  specialize (Hc rb st1).
  destruct (cleanup rb st1) as [[u|e] st2]; cbn in *; congruence.
Qed.

Lemma keeps_for_in {A S} (items : list A) (body : A -> S -> M num S) :
  (forall a s, keeps obs (body a s)) ->
  forall s, keeps obs (for_in items body s).
Proof.
  intros Hb. induction items as [|a rest IH]; intros s; cbn [for_in].
  - apply keeps_ret.
  - apply keeps_bind; [apply Hb | exact IH].
Qed.

Lemma keeps_attr_of (o : option handle) : keeps obs (attr_of o).
Proof. destruct o; [apply keeps_ret | apply keeps_raise]. Qed.

Lemma keeps_getitem {A} (l : list A) (i : nat) : keeps obs (getitem l i).
Proof.
  unfold getitem. destruct (nth_error l i); [apply keeps_ret | apply keeps_raise].
Qed.

Lemma keeps_getitem_last {A} (l : list A) : keeps obs (getitem_last l).
Proof. destruct l; [apply keeps_raise | apply keeps_getitem]. Qed.

Lemma keeps_truediv_int (a : num) (n : Z) : keeps obs (truediv_int a n).
Proof.
  unfold truediv_int. destruct (n =? 0)%Z; [apply keeps_raise | apply keeps_ret].
Qed.

Lemma keeps_sdk_call (c : call num) :
  (forall r st, obs (log (Called c r) st) = obs st) ->
  keeps obs (sdk_call c).
Proof.
  intros H rb st. unfold sdk_call.
  destruct (raises rb (length (trace st))); cbn; apply H.
Qed.

Lemma keeps_sdk_query {A} (c : call num) (answer : Robot num -> nat -> A) :
  (forall r st, obs (log (Called c r) st) = obs st) ->
  keeps obs (sdk_query c answer).
Proof.
  intros H rb st. unfold sdk_query.
  pose proof (keeps_sdk_call H rb st) as Hc.
  destruct (sdk_call c rb st) as [[n|e] st1]; exact Hc.
Qed.

Lemma keeps_assign (upd : SpotRobotConnection -> SpotRobotConnection) :
  (forall st, obs {| conn := upd (conn st); trace := trace st;
                     logged := logged st |} = obs st) ->
  keeps obs (assign upd).
Proof. intros H rb st. apply H. Qed.

Lemma keeps_mobility_params (linear angular : num) :
  keeps obs (mobility_params linear angular).
Proof.
  intros rb st. unfold mobility_params.
  destruct (forallb _ _); reflexivity.
Qed.

Lemma keeps_sdk_local {A B} (f : Robot num -> A -> result B) (a : A) :
  keeps obs (sdk_local f a).
Proof. intros rb st. reflexivity. Qed.

Lemma keeps_logger_debug (r : LogRecord num) :
  (forall rs st, obs (with_logged rs st) = obs st) ->
  keeps obs (logger_debug r).
Proof. intros H rb st. apply (H [r] st). Qed.

Lemma keeps_heading_at (pts : list (num * num)) (idx : nat) :
  keeps obs (heading_at pts idx).
Proof.
  unfold heading_at. destruct (idx <? length pts - 1); [|apply keeps_ret].
  repeat (apply keeps_bind; [apply keeps_getitem | intro]).
  apply keeps_ret.
Qed.

End Keeps.

End Effects.

Section Orchestration.

Context {num : Type} {NUM : Numeric num}.

Lemma keeps_trajectory_points {X} (obs : State num -> X) (T : SE3Pose num) (L t : num) :
  (forall rs st, obs (with_logged rs st) = obs st) ->
  keeps obs (trajectory_points T L t).
Proof. intros H rb st. rewrite trajectory_points_run. apply H. Qed.

Lemma keeps_traj_points {X} (obs : State num -> X) (T : SE3Pose num) (L t : num) :
  keeps obs (traj_points T L t).
Proof. intros rb st. rewrite traj_points_run. reflexivity. Qed.

Lemma filter_snoc_false {A} (f : A -> bool) (l : list A) (a : A) :
  f a = false -> filter f (l ++ [a]) = filter f l.
Proof. intros H. rewrite filter_app. cbn. rewrite H. apply app_nil_r. Qed.

Lemma filter_snoc_true {A} (f : A -> bool) (l : list A) (a : A) :
  f a = true -> filter f (l ++ [a]) = filter f l ++ [a].
Proof. intros H. rewrite filter_app. cbn. rewrite H. reflexivity. Qed.

Ltac obs_side :=
  intros; unfold disconnects, leases, held_lease, log, with_logged;
  cbn [trace conn];
  first [ reflexivity | apply filter_snoc_false; reflexivity ].

Ltac keeps_step :=
  cbv beta zeta;
  lazymatch goal with
  | |- keeps _ (bind _ _) => apply keeps_bind; [| intro]
  | |- keeps _ (ret _) => apply keeps_ret
  | |- keeps _ (raise _) => apply keeps_raise
  | |- keeps _ get_conn => apply keeps_get_conn
  | |- keeps _ (attr_of _) => apply keeps_attr_of
  | |- keeps _ (getitem_last _) => apply keeps_getitem_last
  | |- keeps _ (sdk_call _) => apply keeps_sdk_call; obs_side
  | |- keeps _ (sdk_query _ _) => apply keeps_sdk_query; obs_side
  | |- keeps _ (assign _) => apply keeps_assign; obs_side
  | |- keeps _ (try_except _ (except_Exception _)) => apply keeps_guard
  | |- keeps _ (try_finally _ _) => apply keeps_try_finally
  | |- keeps _ (for_in _ _ _) => apply keeps_for_in; intros
  | |- keeps _ (trajectory_points _ _ _) => apply keeps_trajectory_points; obs_side
  | |- keeps _ (traj_points _ _ _) => apply keeps_traj_points
  | |- keeps _ (mobility_params _ _) => apply keeps_mobility_params
  | |- keeps _ (match ?x with _ => _ end) => destruct x
  | |- keeps _ ((match ?x with _ => _ end) _) => destruct x
  end.

Ltac keeps_auto := repeat keeps_step.

Lemma connect_quiet :
  keeps (num := num) disconnects connect /\ keeps (num := num) leases connect /\ keeps (num := num) held_lease connect.
Proof. unfold connect. repeat split; keeps_auto. Qed.

Lemma authenticate_quiet (u p : string) :
  keeps (num := num) disconnects (authenticate u p) /\ keeps (num := num) leases (authenticate u p) /\
  keeps (num := num) held_lease (authenticate u p).
Proof.
  unfold authenticate.
  repeat split; keeps_auto; apply keeps_try_except; keeps_auto;
    intros e h; destruct (is_InvalidLoginError e); try discriminate;
    intros E; injection E as <-; keeps_auto.
Qed.

Lemma setup_clients_quiet :
  keeps (num := num) disconnects setup_clients /\ keeps (num := num) leases setup_clients /\
  keeps (num := num) held_lease setup_clients.
Proof. unfold setup_clients. repeat split; keeps_auto. Qed.

Lemma stand_up_quiet (w : SquarePathWalker) (timeout : Z) :
  keeps (num := num) disconnects (stand_up w timeout) /\ keeps (num := num) leases (stand_up w timeout).
Proof. unfold stand_up. split; keeps_auto. Qed.

Lemma walk_square_quiet (w : SquarePathWalker) (L v t : num) :
  keeps (num := num) disconnects (walk_square w L v t) /\ keeps (num := num) leases (walk_square w L v t).
Proof. unfold walk_square. split; keeps_auto. Qed.

Lemma verify_not_estopped_quiet :
  keeps (num := num) disconnects verify_not_estopped /\ keeps (num := num) leases verify_not_estopped.
Proof. unfold verify_not_estopped. split; keeps_auto. Qed.

Lemma power_on_quiet (timeout : Z) :
  keeps (num := num) disconnects (power_on timeout) /\ keeps (num := num) leases (power_on timeout).
Proof. unfold power_on. split; keeps_auto. Qed.

Lemma time_sync_quiet :
  keeps (num := num) disconnects time_sync /\ keeps (num := num) leases time_sync.
Proof. unfold time_sync. split; keeps_auto. Qed.

Lemma release_lease_quiet :
  keeps (num := num) disconnects release_lease /\ keeps (num := num) leases release_lease.
Proof. unfold release_lease. split; keeps_auto. Qed.

Lemma bind_unfold {A B} (m : M num A) (k : A -> M num B) rb st :
  bind m k rb st =
  match m rb st with
  | (Val a, st') => k a rb st'
  | (Exc e, st') => (Exc e, st')
  end.
Proof. reflexivity. Qed.

Lemma try_finally_snd {A} (body : M num A) (cleanup : M num unit) rb st :
  snd (try_finally body cleanup rb st) = snd (cleanup rb (snd (body rb st))).
Proof.
  unfold try_finally. destruct (body rb st) as [r st1]. cbn [snd].
  destruct (cleanup rb st1) as [[u|e] st2]; reflexivity.
Qed.

Lemma disconnect_logs_once rb (st : State num) :
  disconnects (snd (disconnect rb st)) = disconnects st ++ [Entered_disconnect] /\
  leases (snd (disconnect rb st)) = leases st.
Proof.
  unfold disconnect. rewrite bind_unfold. cbv beta iota.
  match goal with
  | |- context [snd (?m rb ?s)] =>
      assert (HD : keeps disconnects m) by (unfold release_lease; keeps_auto);
      assert (HA : keeps leases m) by (unfold release_lease; keeps_auto);
      rewrite (HD rb s), (HA rb s)
  end.
  split.
  - unfold disconnects, log. cbn [trace]. apply filter_snoc_true. reflexivity.
  - unfold leases, log. cbn [trace]. apply filter_snoc_false. reflexivity.
Qed.

Lemma acquire_lease_logs rb (st : State num) :
  disconnects (snd (acquire_lease rb st)) = disconnects st /\
  match acquire_lease rb st with
  | (Val true, st') =>
      leases st' = leases st ++ [Called (LeaseKeepAlive_init true true) None]
  | (_, st') => leases st' = leases st /\ held_lease st' = held_lease st
  end.
Proof.
  split.
  - assert (H : keeps (num := num) disconnects acquire_lease)
      by (unfold acquire_lease; keeps_auto).
    apply H.
  - unfold acquire_lease, try_except, bind, sdk_call, assign, ret, except_Exception.
    destruct (raises rb (length (trace st))) as [e|]; cbn.
    + destruct (is_Exception e); cbn; split; try reflexivity;
        unfold leases, log; cbn [trace]; apply filter_snoc_false; reflexivity.
    + unfold leases, log. cbn [trace]. apply filter_snoc_true. reflexivity.
Qed.

(** What [main] does to the two counters, from any state. *)
Lemma main_cleanup (h : string) (L v : num) (vb : bool) rb (st : State num) :
  let st' := snd (main h L v vb rb st) in
  (disconnects st' = disconnects st /\ leases st' = leases st /\
   held_lease st' = None) \/
  (disconnects st' = disconnects st ++ [Entered_disconnect] /\
   leases st' = leases st ++ [Called (LeaseKeepAlive_init true true) None]).
Proof.
  cbv zeta. pattern (snd (main h L v vb rb st)).
  match goal with |- ?P _ => set (Post := P) end.
  unfold main.
  rewrite bind_unfold. unfold put_conn. cbv beta iota.
  set (st0 := {| conn := SpotRobotConnection_init h "SpotClient" vb;
                 trace := trace st; logged := logged st |}).
  assert (D0 : disconnects st0 = disconnects st) by reflexivity.
  assert (A0 : leases st0 = leases st) by reflexivity.
  assert (K0 : held_lease st0 = None) by reflexivity.
  clearbody st0.
  (* connect *)
  rewrite bind_unfold.
  destruct connect_quiet as [D [A K]].
  specialize (D rb st0); specialize (A rb st0); specialize (K rb st0).
  destruct (connect rb st0) as [[ok|e] st1]; cbn [snd] in D, A, K;
    rewrite D0 in D; rewrite A0 in A; rewrite K0 in K; clear D0 A0 K0 st0;
    [|subst Post; left; auto].
  destruct ok; cbn [negb]; [|subst Post; left; auto].
  (* authenticate *)
  rewrite bind_unfold.
  destruct (authenticate_quiet "admin" "password") as [D1 [A1 K1]].
  specialize (D1 rb st1); specialize (A1 rb st1); specialize (K1 rb st1).
  destruct (authenticate "admin" "password" rb st1) as [[ok|e] st2];
    cbn [snd] in D1, A1, K1;
    rewrite D in D1; rewrite A in A1; rewrite K in K1; clear D A K st1;
    [|subst Post; left; auto].
  destruct ok; cbn [negb]; [|subst Post; left; auto].
  (* setup_clients *)
  rewrite bind_unfold.
  destruct setup_clients_quiet as [D [A K]].
  specialize (D rb st2); specialize (A rb st2); specialize (K rb st2).
  destruct (setup_clients rb st2) as [[ok|e] st3]; cbn [snd] in D, A, K;
    rewrite D1 in D; rewrite A1 in A; rewrite K1 in K; clear D1 A1 K1 st2;
    [|subst Post; left; auto].
  destruct ok; cbn [negb]; [|subst Post; left; auto].
  (* acquire_lease *)
  rewrite bind_unfold.
  destruct (acquire_lease_logs rb st3) as [D1 A1].
  destruct (acquire_lease rb st3) as [[ok|e] st4]; cbn [snd] in D1;
    rewrite D in D1;
    [|destruct A1 as [A1 K1]; rewrite A in A1; rewrite K in K1;
      subst Post; left; auto].
  destruct ok; cbn [negb];
    [|destruct A1 as [A1 K1]; rewrite A in A1; rewrite K in K1;
      subst Post; left; auto].
  rewrite A in A1. clear D A K st3.
  (* the try block *)
  subst Post. right. cbv beta. rewrite try_finally_snd.
  match goal with
  | |- context [disconnect rb (snd (?body rb st4))] =>
      assert (HD : keeps disconnects body);
      [| assert (HA : keeps leases body);
         [| destruct (disconnect_logs_once rb (snd (body rb st4))) as [D' A'];
            rewrite D', A', (HD rb st4), (HA rb st4), D1, A1; split; reflexivity ] ]
  end;
    unfold verify_not_estopped, power_on, time_sync, stand_up, walk_square;
    (apply keeps_try_except;
     [ keeps_auto
     | intros e hd; destruct (is_KeyboardInterrupt e);
       [| destruct (is_Exception e); [|discriminate]];
       intros E; injection E as <-; keeps_auto ]).
Qed.

End Orchestration.

Section Guards.

Context {num : Type} {NUM : Numeric num}.

Lemma clean_ret {A} (a : A) : clean (num := num) (ret a).
Proof. intros rb st a' st' E. injection E as _ <-. reflexivity. Qed.

Lemma clean_raise {A} (e : exn) : clean (num := num) (raise (A := A) e).
Proof. intros rb st a' st' E. discriminate E. Qed.

Lemma clean_get_conn : clean (num := num) get_conn.
Proof. intros rb st a' st' E. injection E as _ <-. reflexivity. Qed.

Lemma clean_assign upd : clean (num := num) (assign upd).
Proof. intros rb st a' st' E. injection E as _ <-. reflexivity. Qed.

Lemma clean_bind {A B} (m : M num A) (k : A -> M num B) :
  clean m -> (forall a, clean (k a)) -> clean (bind m k).
Proof.
  intros Hm Hk rb st b st' E. unfold bind in E.
  destruct (m rb st) as [[a|e] st1] eqn:Em; [|discriminate E].
  rewrite (Hk a rb st1 b st' E). exact (Hm rb st a st1 Em).
Qed.

Lemma clean_for_in {A S} (items : list A) (body : A -> S -> M num S) :
  (forall a s, clean (body a s)) -> forall s, clean (for_in items body s).
Proof.
  intros Hb. induction items as [|a rest IH]; intros s; cbn [for_in].
  - apply clean_ret.
  - apply clean_bind; [apply Hb | exact IH].
Qed.

Lemma clean_attr_of (o : option handle) : clean (num := num) (attr_of o).
Proof. destruct o; [apply clean_ret | apply clean_raise]. Qed.

Lemma clean_getitem {A} (l : list A) (i : nat) : clean (num := num) (getitem l i).
Proof.
  unfold getitem. destruct (nth_error l i); [apply clean_ret | apply clean_raise].
Qed.

Lemma clean_getitem_last {A} (l : list A) : clean (num := num) (getitem_last l).
Proof. destruct l; [apply clean_raise | apply clean_getitem]. Qed.

Lemma clean_sdk_call (c : call num) : clean (sdk_call c).
Proof.
  intros rb st n st' E. unfold sdk_call in E.
  destruct (raises rb (length (trace st))); [discriminate E|].
  injection E as _ <-. unfold raised, log. cbn [trace].
  apply filter_snoc_false. reflexivity.
Qed.

Lemma clean_sdk_query {A} (c : call num) (answer : Robot num -> nat -> A) :
  clean (sdk_query c answer).
Proof.
  intros rb st a st' E. unfold sdk_query in E.
  destruct (sdk_call c rb st) as [[n|e] st1] eqn:Ec; [|discriminate E].
  injection E as _ <-. eapply clean_sdk_call. exact Ec.
Qed.

(** A computation that leaves the trace alone has made no call. *)
Lemma clean_of_keeps_trace {A} (m : M num A) :
  keeps (fun st => trace st) m -> clean m.
Proof.
  intros H rb st a st' E. specialize (H rb st). rewrite E in H.
  cbn [snd] in H. rewrite H. reflexivity.
Qed.

Lemma clean_trajectory_points (T : SE3Pose num) (L t : num) :
  clean (trajectory_points T L t).
Proof.
  apply clean_of_keeps_trace, keeps_trajectory_points. reflexivity.
Qed.

Lemma clean_traj_points (T : SE3Pose num) (L t : num) :
  clean (traj_points T L t).
Proof. apply clean_of_keeps_trace, keeps_traj_points. Qed.

Lemma clean_mobility_params (linear angular : num) :
  clean (mobility_params linear angular).
Proof. apply clean_of_keeps_trace, keeps_mobility_params. Qed.

Ltac clean_step :=
  cbv beta zeta;
  lazymatch goal with
  | |- clean (bind _ _) => apply clean_bind; [| intro]
  | |- clean (ret _) => apply clean_ret
  | |- clean (raise _) => apply clean_raise
  | |- clean get_conn => apply clean_get_conn
  | |- clean (attr_of _) => apply clean_attr_of
  | |- clean (getitem_last _) => apply clean_getitem_last
  | |- clean (sdk_call _) => apply clean_sdk_call
  | |- clean (sdk_query _ _) => apply clean_sdk_query
  | |- clean (assign _) => apply clean_assign
  | |- clean (for_in _ _ _) => apply clean_for_in; intros
  | |- clean (trajectory_points _ _ _) => apply clean_trajectory_points
  | |- clean (traj_points _ _ _) => apply clean_traj_points
  | |- clean (mobility_params _ _) => apply clean_mobility_params
  | |- clean (match ?x with _ => _ end) => destruct x
  | |- clean ((match ?x with _ => _ end) _) => destruct x
  end.

Ltac clean_auto := repeat clean_step.

(** The pattern [try: ...; return True  except Exception: return False]. *)
Lemma guarded_of_clean (body : M num bool) :
  clean body -> guarded (try_except body (except_Exception (ret false))).
Proof.
  intros Hc rb st. unfold try_except.
  destruct (body rb st) as [[b|e] st1] eqn:E.
  - destruct b; [exact (Hc rb st true st1 E) | exact I].
  - unfold except_Exception. destruct (is_Exception e) eqn:Ee; cbn; [exact I | exact Ee].
Qed.

Lemma connect_guarded : guarded (num := num) connect.
Proof. apply guarded_of_clean. clean_auto. Qed.

Lemma setup_clients_guarded : guarded (num := num) setup_clients.
Proof. apply guarded_of_clean. clean_auto. Qed.

Lemma acquire_lease_guarded : guarded (num := num) acquire_lease.
Proof. apply guarded_of_clean. clean_auto. Qed.

Lemma power_on_guarded (timeout : Z) : guarded (num := num) (power_on timeout).
Proof. apply guarded_of_clean. clean_auto. Qed.

Lemma time_sync_guarded : guarded (num := num) time_sync.
Proof. apply guarded_of_clean. clean_auto. Qed.

Lemma stand_up_guarded (w : SquarePathWalker) (timeout : Z) :
  guarded (num := num) (stand_up w timeout).
Proof. apply guarded_of_clean. clean_auto. Qed.

Lemma walk_square_guarded (w : SquarePathWalker) (L v t : num) :
  guarded (walk_square w L v t).
Proof. apply guarded_of_clean. clean_auto. Qed.

Lemma walk_square_trajectory_guarded (w : SquarePathWalker) (L v t : num) :
  guarded (walk_square_trajectory w L v t).
Proof. apply guarded_of_clean. clean_auto. Qed.

Lemma authenticate_guarded (u p : string) :
  guarded_with_relogin (num := num) u p (authenticate u p).
Proof.
  intros rb st.
  unfold authenticate, try_except, bind, get_conn, attr_of, sdk_call, ret, raise,
    except_Exception.
  destruct (robot (conn st)) as [r|]; cbn; [|exact I].
  destruct (raises rb (length (trace st))) as [e|] eqn:E1; cbn.
  - destruct e; cbn; try exact I; try reflexivity.
    rewrite length_app. cbn [length].
    destruct (raises rb (length (trace st) + 1)) as [e|] eqn:E2; cbn.
    + destruct (is_Exception e) eqn:Ee; cbn; [exact I | exact Ee].
    + right. unfold raised.
      rewrite filter_snoc_false by reflexivity.
      apply filter_snoc_true. reflexivity.
  - left. unfold raised. apply filter_snoc_false. reflexivity.
Qed.

End Guards.

Section Teardown.

Context {num : Type} {NUM : Numeric num}.

Lemma with_lease_keepalive_None_id (c : SpotRobotConnection) :
  lease_keepalive c = None -> with_lease_keepalive None c = c.
Proof. destruct c. cbn. intros ->. reflexivity. Qed.

(** C8.  Running [disconnect] twice in sequence leaves the connection
    object as one run does, whatever state it starts from (lease
    acquired or not, robot object created or not) and whatever the robot
    answers.  Every call that returns has released the lease when one
    was held, leaves [lease_keepalive] at None and has shut the robot
    object down when there is one; a further call changes nothing in
    the connection object. *)
Theorem disconnect_idempotent (rb : Robot num) (st : State num) :
  conn (snd (bind disconnect (fun _ => disconnect) rb st)) =
    conn (snd (disconnect rb st)) /\
  forall st',
    disconnect rb st = (Val tt, st') ->
    conn st' = with_lease_keepalive None (conn st) /\
    lease_keepalive (conn st') = None /\
    (exists evs,
        trace st' = trace st ++ Entered_disconnect :: evs /\
        (forall k, lease_keepalive (conn st) = Some k ->
                   In (Called LeaseKeepAlive_exit None) evs) /\
        (forall r, robot (conn st) = Some r ->
                   In (Called robot_shutdown None) evs)) /\
    forall rb' : Robot num, conn (snd (disconnect rb' st')) = conn st'.
Proof.
  assert (Hkeep : forall (rb' : Robot num) (s : State num), lease_keepalive (conn s) = None ->
                    conn (snd (disconnect rb' s)) = conn s).
  { intros rb' s Hs.
    unfold disconnect, release_lease, bind, get_conn, sdk_call, assign, ret, log.
    cbn. rewrite Hs. cbn.
    destruct (robot (conn s)); cbn; [|reflexivity].
    destruct (raises rb' _); reflexivity. }
  assert (Hspec : forall st' : State num,
    disconnect rb st = (Val tt, st') ->
    conn st' = with_lease_keepalive None (conn st) /\
    lease_keepalive (conn st') = None /\
    (exists evs,
        trace st' = trace st ++ Entered_disconnect :: evs /\
        (forall k, lease_keepalive (conn st) = Some k ->
                   In (Called LeaseKeepAlive_exit None) evs) /\
        (forall r, robot (conn st) = Some r ->
                   In (Called robot_shutdown None) evs))).
  { intros st'.
    unfold disconnect, release_lease, bind, get_conn, sdk_call, assign, ret, log.
    cbn.
    destruct (lease_keepalive (conn st)) as [k|] eqn:Ek; cbn.
    - destruct (raises rb _) as [e|]; cbn; [discriminate|].
      destruct (robot (conn st)) as [r|] eqn:Er; cbn.
      + destruct (raises rb _) as [e|]; cbn; [discriminate|].
        intros E. injection E as <-. cbn.
        split; [reflexivity|]. split; [reflexivity|].
        exists [Called LeaseKeepAlive_exit None; Called robot_shutdown None].
        split; [repeat rewrite <- app_assoc; reflexivity|].
        split; intros; cbn; auto.
      + intros E. injection E as <-. cbn.
        split; [reflexivity|]. split; [reflexivity|].
        exists [Called LeaseKeepAlive_exit None].
        split; [repeat rewrite <- app_assoc; reflexivity|].
        split; intros; [cbn; auto | discriminate].
    - destruct (robot (conn st)) as [r|] eqn:Er; cbn.
      + destruct (raises rb _) as [e|]; cbn; [discriminate|].
        intros E. injection E as <-. cbn.
        split; [symmetry; apply with_lease_keepalive_None_id; exact Ek|].
        split; [exact Ek|].
        exists [Called robot_shutdown None].
        split; [repeat rewrite <- app_assoc; reflexivity|].
        split; intros; [discriminate | cbn; auto].
      + intros E. injection E as <-. cbn.
        split; [symmetry; apply with_lease_keepalive_None_id; exact Ek|].
        split; [exact Ek|].
        exists [].
        split; [reflexivity|].
        split; intros; discriminate. }
  split.
  - rewrite bind_unfold.
    destruct (disconnect rb st) as [[[]|e] st1] eqn:E; [|reflexivity].
    cbn [snd]. apply Hkeep. apply (Hspec st1 eq_refl).
  - intros st' E. destruct (Hspec st' E) as [H1 [H2 H3]].
    repeat split; try assumption.
    intros rb'. apply Hkeep. exact H2.
Qed.

End Teardown.

Section Batched.

Context {num : Type} {NUM : Numeric num}.

Lemma submitted_app (tr1 tr2 : list (event num)) :
  submitted (tr1 ++ tr2) = submitted tr1 ++ submitted tr2.
Proof.
  induction tr1 as [|ev tr1 IH]; [reflexivity|].
  destruct ev as [c [e|]|]; cbn [app submitted]; try exact IH;
    destruct c; cbn [app submitted]; try exact IH.
  rewrite IH. reflexivity.
Qed.


End Batched.

Section EntryPoint.

Context {num : Type} {NUM : Numeric num}.

Lemma existsb_filter {A} (f : A -> bool) (l : list A) :
  existsb f l = match filter f l with [] => false | _ :: _ => true end.
Proof.
  induction l as [|a l IH]; [reflexivity|].
  cbn. destruct (f a); [reflexivity | exact IH].
Qed.

(** A True result of a guarded operation means that no call raised. *)
Lemma guarded_true (op : M num bool) rb st st' :
  op rb st = (Val true, st') -> guarded op ->
  raised (trace st') = raised (trace st).
Proof. intros E G. specialize (G rb st). rewrite E in G. exact G. Qed.

Lemma clean_disconnect : clean (num := num) disconnect.
Proof.
  unfold disconnect. apply clean_bind.
  - intros rb st a st' E. injection E as _ <-.
    unfold raised, log. cbn [trace]. apply filter_snoc_false. reflexivity.
  - intros _. unfold release_lease.
    repeat
      (cbv beta zeta;
       lazymatch goal with
       | |- clean (bind _ _) => apply clean_bind; [| intro]
       | |- clean (ret _) => apply clean_ret
       | |- clean get_conn => apply clean_get_conn
       | |- clean (sdk_call _) => apply clean_sdk_call
       | |- clean (assign _) => apply clean_assign
       | |- clean (match ?x with _ => _ end) => destruct x
       end).
Qed.

Lemma clean_verify_not_estopped : clean (num := num) verify_not_estopped.
Proof.
  unfold verify_not_estopped.
  repeat
    (cbv beta zeta;
     lazymatch goal with
     | |- clean (bind _ _) => apply clean_bind; [| intro]
     | |- clean (ret _) => apply clean_ret
     | |- clean get_conn => apply clean_get_conn
     | |- clean (attr_of _) => apply clean_attr_of
     | |- clean (sdk_query _ _) => apply clean_sdk_query
     | |- clean (match ?x with _ => _ end) => destruct x
     end).
Qed.

(** [main] returns 0 only if no call of the run raised, save for the
    rejected first login that [authenticate] recovers from. *)
Lemma main_returns_0_only_on_success (h : string) (L v : num) (vb : bool)
    (rb : Robot num) (st st' : State num) :
  main h L v vb rb st = (Val 0%Z, st') ->
  raised (trace st') = raised (trace st) \/
  raised (trace st') =
    raised (trace st) ++
    [Called (robot_authenticate "admin" "password") (Some InvalidLoginError)].
Proof.
  unfold main. rewrite bind_unfold. unfold put_conn. cbv beta iota.
  set (st0 := {| conn := SpotRobotConnection_init h "SpotClient" vb;
                 trace := trace st; logged := logged st |}).
  change (raised (trace st)) with (raised (trace st0)). clearbody st0.
  rewrite bind_unfold.
  destruct (connect rb st0) as [[[|]|e] st1] eqn:E1; cbn [negb];
    try discriminate.
  apply guarded_true in E1; [|apply connect_guarded].
  rewrite <- E1. clear E1 st0.
  rewrite bind_unfold.
  pose proof (authenticate_guarded (num := num) "admin" "password" rb st1) as G2.
  destruct (authenticate "admin" "password" rb st1) as [[[|]|e] st2];
    cbn [negb]; try discriminate.
  rewrite bind_unfold.
  destruct (setup_clients rb st2) as [[[|]|e] st3] eqn:E3; cbn [negb];
    try discriminate.
  apply guarded_true in E3; [|apply setup_clients_guarded].
  rewrite bind_unfold.
  destruct (acquire_lease rb st3) as [[[|]|e] st4] eqn:E4; cbn [negb];
    try discriminate.
  apply guarded_true in E4; [|apply acquire_lease_guarded].
  intros E.
  assert (H : raised (trace st') = raised (trace st4)).
  { revert E. unfold try_finally, try_except.
    rewrite bind_unfold.
    destruct (verify_not_estopped rb st4) as [[[|]|e] st5] eqn:E5; cbn [negb].
    2: { cbv beta iota delta [ret]. destruct (disconnect rb st5) as [[[]|e] st9]; discriminate. }
    2: { destruct (is_KeyboardInterrupt e); [|destruct (is_Exception e)];
         cbv beta iota delta [ret];
         destruct (disconnect rb st5) as [[[]|e'] st9]; discriminate. }
    apply clean_verify_not_estopped in E5.
    rewrite bind_unfold.
    destruct (power_on 20 rb st5) as [[[|]|e] st6] eqn:E6; cbn [negb].
    2: { cbv beta iota delta [ret]. destruct (disconnect rb st6) as [[[]|e] st9]; discriminate. }
    2: { destruct (is_KeyboardInterrupt e); [|destruct (is_Exception e)];
         cbv beta iota delta [ret];
         destruct (disconnect rb st6) as [[[]|e'] st9]; discriminate. }
    apply guarded_true in E6; [|apply power_on_guarded].
    rewrite bind_unfold.
    destruct (time_sync rb st6) as [[[|]|e] st7] eqn:E7; cbn [negb].
    2: { cbv beta iota delta [ret]. destruct (disconnect rb st7) as [[[]|e] st9]; discriminate. }
    2: { destruct (is_KeyboardInterrupt e); [|destruct (is_Exception e)];
         cbv beta iota delta [ret];
         destruct (disconnect rb st7) as [[[]|e'] st9]; discriminate. }
    apply guarded_true in E7; [|apply time_sync_guarded].
    rewrite bind_unfold. unfold get_conn at 1. cbv beta iota.
    rewrite bind_unfold.
    match goal with
    | |- context [stand_up ?w 10%Z rb st7] =>
        destruct (stand_up w 10%Z rb st7) as [[[|]|e] st8] eqn:E8; cbn [negb];
        [ apply guarded_true in E8; [|apply stand_up_guarded] | | ]
    end.
    2: { cbv beta iota delta [ret]. destruct (disconnect rb st8) as [[[]|e] st9]; discriminate. }
    2: { destruct (is_KeyboardInterrupt e); [|destruct (is_Exception e)];
         cbv beta iota delta [ret];
         destruct (disconnect rb st8) as [[[]|e'] st9]; discriminate. }
    rewrite bind_unfold.
    match goal with
    | |- context [walk_square ?w L v ?t rb st8] =>
        destruct (walk_square w L v t rb st8) as [[[|]|e] st9] eqn:E9; cbn [negb];
        [ apply guarded_true in E9; [|apply walk_square_guarded] | | ]
    end.
    2: { cbv beta iota delta [ret]. destruct (disconnect rb st9) as [[[]|e] st10]; discriminate. }
    2: { destruct (is_KeyboardInterrupt e); [|destruct (is_Exception e)];
         cbv beta iota delta [ret];
         destruct (disconnect rb st9) as [[[]|e'] st10]; discriminate. }
    cbv beta iota delta [ret].
    destruct (disconnect rb st9) as [[[]|e] st10] eqn:E10; [|discriminate].
    apply clean_disconnect in E10.
    intros E. injection E as <-. congruence. }
  rewrite H, E4, E3. exact G2.
Qed.

(** C4, as amended.  [main] invokes [disconnect] exactly once on every
    run in which the lease was acquired, wherever the rest of the
    sequence stops and also when the user interrupts it, and not at all
    on the other runs.  In particular, on a run in which [authenticate]
    returns False, [main] returns 1 without invoking [disconnect], and
    no lease is held then. *)
Theorem main_disconnects_once_after_lease (h : string) (L v : num) (vb : bool)
    (rb : Robot num) :
  let run := main h L v vb rb initial_state in
  disconnect_count (trace (snd run)) =
    (if existsb is_lease_acquired (trace (snd run)) then 1 else 0) /\
  forall st1 st2 : State num,
    connect rb {| conn := SpotRobotConnection_init h "SpotClient" vb;
                  trace := []; logged := [] |} = (Val true, st1) ->
    authenticate "admin" "password" rb st1 = (Val false, st2) ->
    run = (Val 1%Z, st2) /\
    disconnect_count (trace st2) = 0 /\
    lease_keepalive (conn st2) = None.
Proof.
  cbv zeta. split.
  - rewrite existsb_filter. unfold disconnect_count.
    destruct (main_cleanup h L v vb rb initial_state) as [[D [A _]]|[D A]];
      unfold disconnects, leases in D, A; rewrite D, A; reflexivity.
  - intros st1 st2 E1 E2.
    split.
    + unfold main. rewrite bind_unfold. unfold put_conn. cbv beta iota.
      cbn [initial_state trace logged].
      rewrite bind_unfold, E1. cbn [negb].
      rewrite bind_unfold, E2. reflexivity.
    + destruct (connect_quiet (num := num)) as [D [_ K]].
      destruct (authenticate_quiet (num := num) "admin" "password") as [D' [_ K']].
      specialize (D rb {| conn := SpotRobotConnection_init h "SpotClient" vb;
                          trace := []; logged := [] |}).
      specialize (K rb {| conn := SpotRobotConnection_init h "SpotClient" vb;
                          trace := []; logged := [] |}).
      specialize (D' rb st1). specialize (K' rb st1).
      rewrite E1 in D, K. rewrite E2 in D', K'. cbn [snd] in *.
      split.
      * unfold disconnect_count. unfold disconnects in D, D'.
        rewrite D', D. reflexivity.
      * unfold held_lease in K, K'. rewrite K', K. reflexivity.
Qed.

(** C10, as amended.  Each of the nine boolean operations never lets an
    exception of class Exception escape, and returns False whenever a
    call it made raised one, with one exception: in [authenticate] an
    InvalidLoginError from [robot.authenticate] starts the interactive
    login, and the result is True if that login succeeds.
    [verify_not_estopped], [release_lease] and [disconnect] have no
    guard: whatever their SDK call raises reaches the caller. *)
Theorem boolean_operations_swallow_Exceptions :
  (forall (w : SquarePathWalker) (L v t : num) (timeout : Z) (u p : string),
      guarded (num := num) connect /\
      guarded_with_relogin (num := num) u p (authenticate u p) /\
      guarded (num := num) setup_clients /\
      guarded (num := num) acquire_lease /\
      guarded (num := num) (power_on timeout) /\
      guarded (num := num) time_sync /\
      guarded (num := num) (stand_up w timeout) /\
      guarded (walk_square w L v t) /\
      guarded (walk_square_trajectory w L v t)) /\
  (forall (rb : Robot num) (st : State num) (e : exn) (r : handle),
      robot (conn st) = Some r ->
      raises rb (length (trace st)) = Some e ->
      fst (verify_not_estopped rb st) = Exc e) /\
  (forall (rb : Robot num) (st : State num) (e : exn) (k : handle),
      lease_keepalive (conn st) = Some k ->
      raises rb (length (trace st)) = Some e ->
      fst (release_lease rb st) = Exc e) /\
  (forall (rb : Robot num) (st : State num) (e : exn) (k : handle),
      lease_keepalive (conn st) = Some k ->
      raises rb (S (length (trace st))) = Some e ->
      fst (disconnect rb st) = Exc e).
Proof.
  split; [|split; [|split]].
  - intros w L v t timeout u p.
    repeat split.
    + apply connect_guarded.
    + apply authenticate_guarded.
    + apply setup_clients_guarded.
    + apply acquire_lease_guarded.
    + apply power_on_guarded.
    + apply time_sync_guarded.
    + apply stand_up_guarded.
    + apply walk_square_guarded.
    + apply walk_square_trajectory_guarded.
  - intros rb st e r Hr He.
    unfold verify_not_estopped, bind, get_conn, attr_of, sdk_query, sdk_call.
    rewrite Hr. cbn. rewrite He. reflexivity.
  - intros rb st e k Hk He.
    unfold release_lease, bind, get_conn, sdk_call.
    rewrite Hk. cbn. rewrite He. reflexivity.
  - intros rb st e k Hk He.
    unfold disconnect, release_lease, bind, get_conn, sdk_call, log.
    cbn. rewrite Hk. cbn. rewrite length_app. cbn [length].
    rewrite Nat.add_1_r, He. reflexivity.
Qed.

(** On validation failure the entry point exits with 1 before any call
    is made. *)
Lemma dunder_main_rejects_side_length (args : Args num) (rb : Robot num)
    (st : State num) :
  nleb (args_side_length args) (of_int 0) = true ->
  dunder_main (Namespace args) rb st = (Val 1%Z, st).
Proof. intros H. unfold dunder_main. rewrite H. reflexivity. Qed.

Lemma dunder_main_rejects_velocity (args : Args num) (rb : Robot num)
    (st : State num) :
  nleb (args_velocity args) (of_int 0) = true \/
  nltb (of_int 2) (args_velocity args) = true ->
  dunder_main (Namespace args) rb st = (Val 1%Z, st).
Proof.
  intros H. unfold dunder_main.
  destruct (nleb (args_side_length args) (of_int 0)); [reflexivity|].
  destruct H as [-> | ->]; [reflexivity|].
  rewrite orb_true_r. reflexivity.
Qed.

End EntryPoint.

Lemma main_disconnects_once_after_lease_witness :
  let st0 := {| conn := SpotRobotConnection_init "192.168.1.20" "SpotClient" false;
                trace := []; logged := [] |} in
  let st1 := snd (connect (num := float) rejecting_robot st0) in
  let st2 := snd (authenticate (num := float) "admin" "password" rejecting_robot st1) in
  main (NUM := F) "192.168.1.20" 1%float 0.5%float false rejecting_robot
       initial_state = (Val 1%Z, st2) /\
  disconnect_count (trace st2) = 0 /\
  lease_keepalive (conn st2) = None.
Proof.
  intros st0 st1 st2.
  apply (proj2 (main_disconnects_once_after_lease (NUM := F) "192.168.1.20"
                  1%float 0.5%float false rejecting_robot) st1 st2);
    vm_compute; reflexivity.
Defined.

(** C4 as stated fails: when the robot rejects the credentials,
    [authenticate] returns False and [main] returns 1 after four calls,
    none of them made by [disconnect], which is not invoked. *)
Lemma auth_failure_skips_disconnect :
  let run := main (NUM := F) "192.168.1.20" 1%float 0.5%float false
                  rejecting_robot initial_state in
  fst run = Val 1%Z /\
  trace (snd run) =
    [ Called (create_standard_sdk "SpotClient") None;
      Called (create_robot "192.168.1.20") None;
      Called (robot_authenticate "admin" "password") (Some InvalidLoginError);
      Called util_authenticate (Some InvalidLoginError) ] /\
  disconnect_count (trace (snd run)) = 0.
Proof. vm_compute. repeat split; reflexivity. Qed.

Lemma boolean_operations_swallow_Exceptions_witness :
  fst (verify_not_estopped (num := float) (failing_robot 0) leased_state) =
    Exc (SdkError 0) /\
  fst (release_lease (num := float) (failing_robot 0) leased_state) =
    Exc (SdkError 0) /\
  fst (disconnect (num := float) (failing_robot 1) leased_state) =
    Exc (SdkError 0).
Proof.
  pose proof (boolean_operations_swallow_Exceptions (NUM := F)) as [_ [H1 [H2 H3]]].
  split; [|split].
  - apply (H1 (failing_robot 0) leased_state (SdkError 0) 1); reflexivity.
  - apply (H2 (failing_robot 0) leased_state (SdkError 0) 7); reflexivity.
  - apply (H3 (failing_robot 1) leased_state (SdkError 0) 7); reflexivity.
Defined.

(** C10 as stated fails twice.  When [robot.authenticate] raises
    InvalidLoginError and the interactive login succeeds,
    [authenticate] returns True although an SDK call raised; and a
    KeyboardInterrupt raised during a call of [connect] is not turned
    into False but propagates. *)
Lemma relogin_is_True_and_interrupt_propagates :
  (let st0 := {| conn := SpotRobotConnection_init "192.168.1.20" "SpotClient" false;
                 trace := []; logged := [] |} in
   let st1 := snd (connect (num := float) relogin_robot st0) in
   let run := authenticate (num := float) "admin" "password" relogin_robot st1 in
   fst run = Val true /\
   raised (trace (snd run)) =
     [ Called (robot_authenticate "admin" "password") (Some InvalidLoginError) ]) /\
  fst (connect (num := float) (interrupted_robot 0) initial_state) =
    Exc KeyboardInterrupt.
Proof. vm_compute. repeat split; reflexivity. Qed.

Lemma disconnect_idempotent_witness :
  let st' := snd (disconnect (num := float) cooperative_robot leased_state) in
  conn st' = with_lease_keepalive None (conn leased_state) /\
  lease_keepalive (conn st') = None /\
  (exists evs,
      trace st' = trace leased_state ++ Entered_disconnect :: evs /\
      (forall k, lease_keepalive (conn leased_state) = Some k ->
                 In (Called LeaseKeepAlive_exit None) evs) /\
      (forall r, robot (conn leased_state) = Some r ->
                 In (Called robot_shutdown None) evs)) /\
  forall rb' : Robot float, conn (snd (disconnect (num := float) rb' st')) = conn st'.
Proof.
  cbv zeta.
  apply (proj2 (disconnect_idempotent (num := float) cooperative_robot leased_state)).
  reflexivity.
Defined.

(** * Further properties of the operations *)

Ltac obs_unchanged :=
  intros;
  unfold sent, motions, disconnects, leases, held_lease, raised, log, with_logged;
  cbn [trace conn];
  first
    [ reflexivity
    | apply filter_snoc_false; reflexivity
    | rewrite submitted_app; cbn [submitted];
      first [ apply app_nil_r
            | match goal with
              | |- context [match ?r with _ => _ end] =>
                  destruct r; apply app_nil_r
              end ] ].

Ltac keeps_walk :=
  repeat
    (cbv beta zeta;
     lazymatch goal with
     | |- keeps _ (bind _ _) => apply keeps_bind; [| intro]
     | |- keeps _ (ret _) => apply keeps_ret
     | |- keeps _ (raise _) => apply keeps_raise
     | |- keeps _ get_conn => apply keeps_get_conn
     | |- keeps _ (attr_of _) => apply keeps_attr_of
     | |- keeps _ (getitem_last _) => apply keeps_getitem_last
     | |- keeps _ (sdk_call _) => apply keeps_sdk_call; obs_unchanged
     | |- keeps _ (sdk_query _ _) => apply keeps_sdk_query; obs_unchanged
     | |- keeps _ (assign _) => apply keeps_assign; obs_unchanged
     | |- keeps _ (try_except _ (except_Exception _)) => apply keeps_guard
     | |- keeps _ (try_finally _ _) => apply keeps_try_finally
     | |- keeps _ (for_in _ _ _) => apply keeps_for_in; intros
     | |- keeps _ (trajectory_points _ _ _) =>
         apply keeps_trajectory_points; obs_unchanged
     | |- keeps _ (traj_points _ _ _) => apply keeps_traj_points
     | |- keeps _ (mobility_params _ _) => apply keeps_mobility_params
     | |- keeps _ (match ?x with _ => _ end) => destruct x
     | |- keeps _ ((match ?x with _ => _ end) _) => destruct x
     end).

Section Incremental.

Context {num : Type} {NUM : Numeric num}.

Variables (w : SquarePathWalker) (max_velocity : num).

(** The body of the submission loop of [walk_square]. *)
Let send (wp : SE2Pose num * num) (last : option Z) : M num (option Z) :=
  let '(pose, time_val) := wp in
  bind (mobility_params max_velocity (of_int 1)) (fun mobility_params =>
  bind (attr_of (command_client w)) (fun _ =>
  bind (sdk_query time_time clock) (fun now =>
  bind (sdk_query
          (robot_command
             (synchro_se2_trajectory_point_command
                (vec_x (position pose)) (vec_y (position pose)) (angle pose)
                VISION_FRAME_NAME mobility_params (of_int 0))
             (nadd now time_val))
          issued_id) (fun command_id =>
  bind (sdk_call (time_sleep tenth)) (fun _ =>
  ret (Some command_id)))))).





(** When the submission loop ends normally after at least one waypoint,
    the run ends with the last command followed by the pause, and the
    id it hands on is the one issued for that command. *)
Lemma submission_loop_last (pts : list (SE2Pose num * num)) :
  forall (last : option Z) (rb : Robot num) (st st' : State num)
         (cid : option Z),
    for_in pts send last rb st = (Val cid, st') ->
    (pts = [] /\ cid = last /\ st' = st) \/
    exists pre cmd end_time,
      trace st' =
        pre ++ [Called (robot_command cmd end_time) None;
                Called (time_sleep tenth) None] /\
      cid = Some (issued_id rb (length pre)).
Proof.
  induction pts as [|[pose time_val] rest IH]; intros last rb st st' cid E.
  - injection E as <- <-. left. auto.
  - right. cbn [for_in] in E. rewrite bind_unfold in E.
    unfold send at 1 in E. unfold bind at 1, mobility_params at 1 in E.
    destruct (forallb _ _); cbv beta iota in E; [|discriminate E].
    unfold bind at 1, attr_of in E.
    destruct (command_client w) as [cc|]; cbn [ret raise] in E;
      [|discriminate E].
    unfold bind at 1, sdk_query at 1, sdk_call at 1 in E.
    destruct (raises rb (length (trace st))) as [e1|]; [discriminate E|].
    cbv beta iota in E.
    set (st1 := log (Called time_time None) st) in E.
    unfold bind at 1, sdk_query at 1, sdk_call at 1 in E.
    destruct (raises rb (length (trace st1))) as [e2|]; [discriminate E|].
    cbv beta iota in E.
    match type of E with
    | context [log (Called (robot_command ?c ?t) None) st1] =>
        set (cmd := c) in E; set (end_time := t) in E;
        set (st2 := log (Called (robot_command cmd end_time) None) st1) in E
    end.
    unfold bind at 1, sdk_call at 1 in E.
    destruct (raises rb (length (trace st2))) as [e3|]; [discriminate E|].
    cbv beta iota in E. unfold ret at 1 in E. cbv beta iota in E.
    set (st3 := log (Called (time_sleep tenth) None) st2) in E.
    destruct (IH _ rb st3 st' cid E) as [[_ [-> ->]]|H]; [|exact H].
    exists (trace st1), cmd, end_time. split; [|reflexivity].
    unfold st3, st2, log. cbn [trace]. rewrite <- app_assoc. reflexivity.
Qed.

(** X2.  When [walk_square] returns True, the run ends with the fifth
    command and the pause after it, followed by a wait for that command
    with timeout [total_time + 5]; the wait is skipped when the id the
    robot issued for the command is 0, which Python reads as false. *)
Theorem walk_square_waits_for_last_command (L t : num) (rb : Robot num)
    (st st' : State num) :
  walk_square w L max_velocity t rb st = (Val true, st') ->
  exists pre cmd end_time,
    let id := issued_id rb (length pre) in
    trace st' =
      pre ++ [Called (robot_command cmd end_time) None;
              Called (time_sleep tenth) None] ++
      (if (id =? 0)%Z then []
       else [Called (block_for_trajectory_cmd id (nadd t (of_int 5))) None]).
Proof.
  unfold walk_square, try_except.
  match goal with
  | |- context [match ?body rb st with _ => _ end] =>
      destruct (body rb st) as [[b|e] stb] eqn:Eb
  end.
  2: { unfold except_Exception. destruct (is_Exception e); discriminate. }
  intros E. injection E as -> ->.
  unfold bind at 1, attr_of in Eb.
  destruct (state_client w) as [sc|]; cbn [ret raise] in Eb; [|discriminate Eb].
  unfold bind at 1, sdk_call at 1 in Eb.
  destruct (raises rb (length (trace st))) as [e1|]; [discriminate Eb|].
  cbv beta iota in Eb.
  set (st1 := log (Called get_robot_state None) st) in Eb.
  unfold bind at 1, sdk_query at 1, sdk_call at 1 in Eb.
  destruct (raises rb (length (trace st1))) as [e2|]; [discriminate Eb|].
  cbv beta iota in Eb.
  set (T := vision_tform_body rb (length (trace st1))) in Eb.
  set (st2 := log (Called get_vision_tform_body None) st1) in Eb.
  rewrite bind_unfold, trajectory_points_run in Eb.
  rewrite bind_unfold in Eb.
  set (st2l := with_logged (point_records (square_plan T L t)) st2) in Eb.
  destruct (for_in (square_plan T L t) _ None rb st2l) as [[cid|e3] st3] eqn:EL;
    [|discriminate Eb].
  change (for_in (square_plan T L t) send None rb st2l = (Val cid, st3)) in EL.
  apply submission_loop_last in EL.
  destruct EL as [[Hnil _]|[pre [cmd [end_time [Htr ->]]]]]; [discriminate Hnil|].
  exists pre, cmd, end_time. cbv zeta.
  destruct (issued_id rb (length pre) =? 0)%Z.
  - injection Eb as <-. rewrite Htr, app_nil_r. reflexivity.
  - unfold bind, sdk_call, ret in Eb.
    destruct (raises rb (length (trace st3))); [discriminate Eb|].
    injection Eb as <-. unfold log. cbn [trace]. rewrite Htr.
    rewrite <- !app_assoc. reflexivity.
Qed.

End Incremental.

Section MainAnatomy.

Context {num : Type} {NUM : Numeric num}.

(** [main] is its preamble followed, when the preamble succeeded, by
    the guarded block with [disconnect] as its [finally] clause. *)
Lemma main_anatomy (h : string) (L v : num) (vb : bool) (rb : Robot num)
    (st : State num) :
  main h L v vb rb st =
  match main_preamble h vb rb st with
  | (Val true, st4) => try_finally (main_block L v) disconnect rb st4
  | (Val false, st4) => (Val 1%Z, st4)
  | (Exc e, st4) => (Exc e, st4)
  end.
Proof.
  unfold main, main_preamble.
  rewrite !(bind_unfold (put_conn _)). unfold put_conn. cbv beta iota.
  set (st0 := {| conn := _; trace := trace st; logged := logged st |}). clearbody st0.
  rewrite !(bind_unfold connect).
  destruct (connect rb st0) as [[[|]|e] st1]; cbn [negb]; try reflexivity.
  rewrite !(bind_unfold (authenticate _ _)).
  destruct (authenticate "admin" "password" rb st1) as [[[|]|e] st2];
    cbn [negb]; try reflexivity.
  rewrite !(bind_unfold setup_clients).
  destruct (setup_clients rb st2) as [[[|]|e] st3]; cbn [negb]; try reflexivity.
  rewrite !(bind_unfold acquire_lease).
  destruct (acquire_lease rb st3) as [[[|]|e] st4]; cbn [negb]; reflexivity.
Qed.

(** The guarded block never raises and yields 0 or 1. *)
Lemma main_block_returns (L v : num) (rb : Robot num) (st : State num) :
  exists c, fst (main_block L v rb st) = Val c /\ (c = 0%Z \/ c = 1%Z).
Proof.
  unfold main_block, try_except.
  match goal with
  | |- context [match ?body rb st with _ => _ end] =>
      destruct (body rb st) as [[c|e] stb] eqn:Eb
  end.
  - exists c. split; [reflexivity|]. revert Eb.
    repeat
      (rewrite bind_unfold;
       match goal with
       | |- context [match ?m rb ?s with _ => _ end] =>
           destruct (m rb s) as [[[|]|?] ?]; cbn [negb]
       end;
       try discriminate;
       try (intros E; injection E as <- _; auto; fail)).
    rewrite bind_unfold. unfold get_conn at 1. cbv beta iota.
    repeat
      (rewrite bind_unfold;
       match goal with
       | |- context [match ?m rb ?s with _ => _ end] =>
           destruct (m rb s) as [[[|]|?] ?]; cbn [negb]
       end;
       try discriminate;
       try (intros E; injection E as <- _; auto; fail)).
  - exists 1%Z. split; [|auto].
    destruct e; reflexivity.
Qed.

End MainAnatomy.

Section Extends.

Context {num : Type} {NUM : Numeric num}.

Lemma extends_ret {A} (a : A) : extends (num := num) (ret a).
Proof. intros rb st. exists []. cbn. symmetry. apply app_nil_r. Qed.

Lemma extends_raise {A} (e : exn) : extends (num := num) (raise (A := A) e).
Proof. intros rb st. exists []. cbn. symmetry. apply app_nil_r. Qed.

Lemma extends_get_conn : extends (num := num) get_conn.
Proof. intros rb st. exists []. cbn. symmetry. apply app_nil_r. Qed.

Lemma extends_assign upd : extends (num := num) (assign upd).
Proof. intros rb st. exists []. cbn. symmetry. apply app_nil_r. Qed.

Lemma extends_bind {A B} (m : M num A) (k : A -> M num B) :
  extends m -> (forall a, extends (k a)) -> extends (bind m k).
Proof.
  intros Hm Hk rb st. unfold bind.
  destruct (Hm rb st) as [evs1 H1].
  destruct (m rb st) as [[a|e] st1]; cbn [snd] in *.
  - destruct (Hk a rb st1) as [evs2 H2].
    exists (evs1 ++ evs2). rewrite H2, H1. symmetry. apply app_assoc.
  - exists evs1. exact H1.
Qed.

Lemma extends_try_except {A} (body : M num A) (handler : exn -> option (M num A)) :
  extends body ->
  (forall e h, handler e = Some h -> extends h) ->
  extends (try_except body handler).
Proof.
  intros Hb Hh rb st. unfold try_except.
  destruct (Hb rb st) as [evs1 H1].
  destruct (body rb st) as [[a|e] st1]; cbn [snd] in *.
  - exists evs1. exact H1.
  - destruct (handler e) as [h|] eqn:E; cbn [snd].
    + destruct (Hh e h E rb st1) as [evs2 H2].
      exists (evs1 ++ evs2). rewrite H2, H1. symmetry. apply app_assoc.
    + exists evs1. exact H1.
Qed.

Lemma extends_guard {A} (body v : M num A) :
  extends body -> extends v ->
  extends (try_except body (except_Exception v)).
Proof.
  intros Hb Hv. apply extends_try_except; [exact Hb|].
  intros e h. unfold except_Exception.
  destruct (is_Exception e); [|discriminate].
  intros E. injection E as <-. exact Hv.
Qed.

Lemma extends_for_in {A S} (items : list A) (body : A -> S -> M num S) :
  (forall a s, extends (body a s)) -> forall s, extends (for_in items body s).
Proof.
  intros Hb. induction items as [|a rest IH]; intros s; cbn [for_in].
  - apply extends_ret.
  - apply extends_bind; [apply Hb | exact IH].
Qed.

Lemma extends_attr_of (o : option handle) : extends (num := num) (attr_of o).
Proof. destruct o; [apply extends_ret | apply extends_raise]. Qed.

Lemma extends_sdk_call (c : call num) : extends (sdk_call c).
Proof.
  intros rb st. unfold sdk_call.
  destruct (raises rb (length (trace st))); eexists; reflexivity.
Qed.

Lemma extends_sdk_query {A} (c : call num) (answer : Robot num -> nat -> A) :
  extends (sdk_query c answer).
Proof.
  intros rb st. unfold sdk_query.
  destruct (extends_sdk_call c rb st) as [evs H].
  destruct (sdk_call c rb st) as [[n|e] st1]; exists evs; exact H.
Qed.

Lemma extends_trajectory_points (T : SE3Pose num) (L t : num) :
  extends (trajectory_points T L t).
Proof.
  intros rb st. rewrite trajectory_points_run. exists []. cbn.
  symmetry. apply app_nil_r.
Qed.

Lemma extends_mobility_params (linear angular : num) :
  extends (mobility_params linear angular).
Proof.
  intros rb st. exists []. rewrite keeps_mobility_params.
  symmetry. apply app_nil_r.
Qed.

Lemma extends_walk_square (w : SquarePathWalker) (L v t : num) :
  extends (walk_square w L v t).
Proof.
  unfold walk_square.
  repeat
    (cbv beta zeta;
     lazymatch goal with
     | |- extends (bind _ _) => apply extends_bind; [| intro]
     | |- extends (ret _) => apply extends_ret
     | |- extends (attr_of _) => apply extends_attr_of
     | |- extends (sdk_call _) => apply extends_sdk_call
     | |- extends (sdk_query _ _) => apply extends_sdk_query
     | |- extends (try_except _ (except_Exception _)) => apply extends_guard
     | |- extends (for_in _ _ _) => apply extends_for_in; intros
     | |- extends (trajectory_points _ _ _) => apply extends_trajectory_points
     | |- extends (mobility_params _ _) => apply extends_mobility_params
     | |- extends (match ?x with _ => _ end) => destruct x
     | |- extends ((match ?x with _ => _ end) _) => destruct x
     end).
Qed.

Lemma extends_disconnect : extends (num := num) disconnect.
Proof.
  unfold disconnect, release_lease.
  apply extends_bind; [intros rb st; eexists; reflexivity | intro].
  repeat
    (cbv beta zeta;
     lazymatch goal with
     | |- extends (bind _ _) => apply extends_bind; [| intro]
     | |- extends (ret _) => apply extends_ret
     | |- extends get_conn => apply extends_get_conn
     | |- extends (assign _) => apply extends_assign
     | |- extends (sdk_call _) => apply extends_sdk_call
     | |- extends (match ?x with _ => _ end) => destruct x
     end).
Qed.

End Extends.

Section Handles.

Context {num : Type} {NUM : Numeric num}.

Ltac crunch_calls rb :=
  repeat
    (match goal with
     | |- context [raises rb ?n] => destruct (raises rb n) as [?e|]; cbn
     | |- context [is_Exception ?e] => destruct (is_Exception e); cbn
     end).

Lemma connect_sets (rb : Robot num) (st st' : State num) :
  connect rb st = (Val true, st') ->
  sdk (conn st') = Some (length (trace st)) /\
  robot (conn st') = Some (S (length (trace st))) /\
  trace st' =
    trace st ++ [Called (create_standard_sdk (client_name (conn st))) None;
                 Called (create_robot (hostname (conn st))) None].
Proof.
  unfold connect, try_except, bind, get_conn, attr_of, sdk_call, assign, ret,
    except_Exception, log.
  cbn. crunch_calls rb; try discriminate.
  intros E. apply (f_equal snd) in E. cbn [snd] in E. subst st'. cbn.
  rewrite List.length_app. cbn [length]. rewrite Nat.add_1_r, <- app_assoc. auto.
Qed.

Lemma setup_clients_sets (rb : Robot num) (st st' : State num) :
  setup_clients rb st = (Val true, st') ->
  let n := length (trace st) in
  lease_client (conn st') = Some n /\
  robot_command_client (conn st') = Some (n + 1) /\
  robot_state_client (conn st') = Some (n + 2) /\
  power_client (conn st') = Some (n + 3) /\
  robot (conn st') = robot (conn st) /\
  lease_keepalive (conn st') = lease_keepalive (conn st).
Proof.
  unfold setup_clients, try_except, bind, get_conn, attr_of, sdk_call, assign,
    ret, raise, except_Exception, log.
  cbn. destruct (robot (conn st)) as [r|] eqn:Er; cbn; [|discriminate].
  repeat
    (match goal with
     | |- context [raises rb ?n] =>
         destruct (raises rb n) as [?e|]; cbn; rewrite ?Er; cbn
     | |- context [is_Exception ?e] => destruct (is_Exception e); cbn
     end);
    try discriminate.
  intros E. apply (f_equal snd) in E. cbn [snd] in E. subst st'. cbn.
  rewrite !List.length_app. cbn [length].
  repeat split; try (f_equal; lia); auto.
Qed.

Lemma acquire_lease_sets (rb : Robot num) (st st' : State num) :
  acquire_lease rb st = (Val true, st') ->
  trace st' = trace st ++ [Called (LeaseKeepAlive_init true true) None] /\
  conn st' = with_lease_keepalive (Some (length (trace st))) (conn st).
Proof.
  unfold acquire_lease, try_except, bind, sdk_call, assign, ret,
    except_Exception, log.
  cbn. crunch_calls rb; try discriminate.
  intros E. apply (f_equal snd) in E. cbn [snd] in E. subst st'. auto.
Qed.

(** X11.  When [connect], [setup_clients] and [acquire_lease] return True
    they have stored what the later steps use: the SDK and robot
    objects, the four service clients, and the lease keep-alive. *)
Theorem true_results_store_handles (rb : Robot num) (st st' : State num) :
  (connect rb st = (Val true, st') ->
   sdk (conn st') <> None /\ robot (conn st') <> None) /\
  (setup_clients rb st = (Val true, st') ->
   robot (conn st) <> None /\
   lease_client (conn st') <> None /\
   robot_command_client (conn st') <> None /\
   robot_state_client (conn st') <> None /\
   power_client (conn st') <> None) /\
  (acquire_lease rb st = (Val true, st') ->
   lease_keepalive (conn st') <> None).
Proof.
  split; [|split].
  - intros E. apply connect_sets in E. destruct E as [-> [-> _]]. split; discriminate.
  - intros E. pose proof E as H. apply setup_clients_sets in H. cbv zeta in H.
    destruct H as [-> [-> [-> [-> _]]]].
    split; [|repeat split; discriminate].
    revert E.
    unfold setup_clients, try_except, bind, get_conn, attr_of, raise,
      except_Exception.
    cbn. destruct (robot (conn st)); [discriminate|]. cbn. discriminate.
  - intros E. apply acquire_lease_sets in E. destruct E as [_ ->]. cbn. discriminate.
Qed.

End Handles.

Section MainProperties.

Context {num : Type} {NUM : Numeric num}.

Lemma keeps_put_conn {X} (obs : State num -> X) (c : SpotRobotConnection) :
  (forall st, obs {| conn := c; trace := trace st; logged := logged st |} = obs st) ->
  keeps obs (put_conn c).
Proof. intros H rb st. apply H. Qed.

Ltac keeps_relogin :=
  apply keeps_try_except; [keeps_walk|];
  let e := fresh "e" in
  let hd := fresh "hd" in
  let E := fresh "E" in
  intros e hd; destruct (is_InvalidLoginError e); try discriminate;
  intros E; injection E as <-; keeps_walk.

Lemma main_preamble_keeps (h : string) (vb : bool) :
  keeps (num := num) sent (main_preamble h vb) /\
  keeps (num := num) motions (main_preamble h vb).
Proof.
  unfold main_preamble, connect, authenticate, setup_clients, acquire_lease.
  split;
    (apply keeps_bind; [apply keeps_put_conn; reflexivity | intro];
     apply keeps_bind; [keeps_walk | intro];
     destruct (negb _); [keeps_walk|];
     apply keeps_bind;
       [apply keeps_guard; [|keeps_walk];
        apply keeps_bind; [keeps_relogin | intro; keeps_walk]
       | intro];
     keeps_walk).
Qed.

Lemma disconnect_keeps :
  keeps (num := num) sent disconnect /\ keeps (num := num) motions disconnect.
Proof.
  unfold disconnect, release_lease.
  split;
    (apply keeps_bind;
     [intros rb st; cbn [snd]; obs_unchanged | intro; keeps_walk]).
Qed.

(** What the preamble leaves behind, by outcome. *)
Lemma main_preamble_outcome (h : string) (vb : bool) (rb : Robot num)
    (st st4 : State num) (r : result bool) :
  main_preamble h vb rb st = (r, st4) ->
  match r with
  | Val true =>
      exists st3,
        acquire_lease rb st3 = (Val true, st4) /\
        sent st3 = sent st /\ motions st3 = motions st
  | Val false => held_lease st4 = None /\ leases st4 = leases st
  | Exc e => is_Exception e = false /\ held_lease st4 = None /\
             leases st4 = leases st
  end.
Proof.
  unfold main_preamble.
  rewrite bind_unfold. unfold put_conn. cbv beta iota.
  set (st0 := {| conn := SpotRobotConnection_init h "SpotClient" vb;
                 trace := trace st; logged := logged st |}).
  assert (S0 : sent st0 = sent st) by reflexivity.
  assert (M0 : motions st0 = motions st) by reflexivity.
  assert (A0 : leases st0 = leases st) by reflexivity.
  assert (K0 : held_lease st0 = None) by reflexivity.
  clearbody st0.
  (* connect *)
  rewrite bind_unfold.
  pose proof (connect_guarded rb st0) as G.
  destruct (connect_quiet (num := num)) as [_ [A K]].
  specialize (A rb st0); specialize (K rb st0).
  assert (S1 : sent (snd (connect rb st0)) = sent st0)
    by (unfold connect; apply (keeps_guard (obs := sent)); keeps_walk).
  assert (M1 : motions (snd (connect rb st0)) = motions st0)
    by (unfold connect; apply (keeps_guard (obs := motions)); keeps_walk).
  destruct (connect rb st0) as [[[|]|e] st1]; cbn [snd negb] in *.
  2: { intros E. injection E as <- <-. split; congruence. }
  2: { intros E. injection E as <- <-. repeat split; congruence. }
  rewrite S0 in S1. rewrite M0 in M1. rewrite A0 in A. rewrite K0 in K.
  clear G S0 M0 A0 K0 st0.
  (* authenticate *)
  rewrite bind_unfold.
  pose proof (authenticate_guarded (num := num) "admin" "password" rb st1) as G.
  destruct (authenticate_quiet (num := num) "admin" "password") as [_ [A2 K2]].
  specialize (A2 rb st1); specialize (K2 rb st1).
  assert (S2 : sent (snd (authenticate "admin" "password" rb st1)) = sent st1).
  { unfold authenticate. apply (keeps_guard (obs := sent)); [|keeps_walk].
    apply keeps_bind; [keeps_relogin | intro; keeps_walk]. }
  assert (M2 : motions (snd (authenticate "admin" "password" rb st1)) = motions st1).
  { unfold authenticate. apply (keeps_guard (obs := motions)); [|keeps_walk].
    apply keeps_bind; [keeps_relogin | intro; keeps_walk]. }
  destruct (authenticate "admin" "password" rb st1) as [[[|]|e] st2];
    cbn [snd negb] in *.
  2: { intros E. injection E as <- <-. split; congruence. }
  2: { intros E. injection E as <- <-. repeat split; congruence. }
  rewrite S1 in S2. rewrite M1 in M2. rewrite A in A2. rewrite K in K2.
  clear G S1 M1 A K st1.
  (* setup_clients *)
  rewrite bind_unfold.
  pose proof (setup_clients_guarded rb st2) as G.
  destruct (setup_clients_quiet (num := num)) as [_ [A K]].
  specialize (A rb st2); specialize (K rb st2).
  assert (S3 : sent (snd (setup_clients rb st2)) = sent st2)
    by (unfold setup_clients; apply (keeps_guard (obs := sent)); keeps_walk).
  assert (M3 : motions (snd (setup_clients rb st2)) = motions st2)
    by (unfold setup_clients; apply (keeps_guard (obs := motions)); keeps_walk).
  destruct (setup_clients rb st2) as [[[|]|e] st3]; cbn [snd negb] in *.
  2: { intros E. injection E as <- <-. split; congruence. }
  2: { intros E. injection E as <- <-. repeat split; congruence. }
  rewrite S2 in S3. rewrite M2 in M3. rewrite A2 in A. rewrite K2 in K.
  clear G S2 M2 A2 K2 st2.
  (* acquire_lease *)
  rewrite bind_unfold.
  pose proof (acquire_lease_guarded rb st3) as G.
  destruct (acquire_lease_logs rb st3) as [_ A4].
  destruct (acquire_lease rb st3) as [[[|]|e] st4'] eqn:E4; cbn [snd negb] in *.
  - intros E. injection E as <- <-. exists st3. auto.
  - intros E. injection E as <- <-. destruct A4. split; congruence.
  - intros E. injection E as <- <-. destruct A4. repeat split; congruence.
Qed.

Lemma disconnect_releases (rb : Robot num) (st st' : State num) :
  disconnect rb st = (Val tt, st') -> held_lease st' = None.
Proof.
  unfold disconnect, release_lease, bind, get_conn, sdk_call, assign, ret, log,
    held_lease.
  cbn. destruct (lease_keepalive (conn st)) as [k|] eqn:Ek; cbn.
  - destruct (raises rb _); cbn; [discriminate|].
    destruct (robot (conn st)); cbn;
      [destruct (raises rb _); cbn; [discriminate|]|];
      intros E; apply (f_equal snd) in E; cbn [snd] in E; subst st';
      reflexivity.
  - destruct (robot (conn st)); cbn;
      [destruct (raises rb _); cbn; [discriminate|]|];
      intros E; apply (f_equal snd) in E; cbn [snd] in E; subst st';
      exact Ek.
Qed.


(** X7.  Whenever [main] returns, it returns 0 or 1 and no lease is held:
    either none was acquired, or [disconnect] has released it. *)
Theorem main_returns_without_lease (h : string) (L v : num) (vb : bool)
    (rb : Robot num) (st st' : State num) (c : Z) :
  main h L v vb rb st = (Val c, st') ->
  (c = 0%Z \/ c = 1%Z) /\ lease_keepalive (conn st') = None.
Proof.
  rewrite main_anatomy.
  destruct (main_preamble h vb rb st) as [[[|]|e] st4] eqn:EP;
    apply main_preamble_outcome in EP.
  - unfold try_finally.
    destruct (main_block_returns L v rb st4) as [c' [Hc Hc']].
    destruct (main_block L v rb st4) as [r5 st5]. cbn [fst] in Hc. subst r5.
    destruct (disconnect rb st5) as [[[]|e] st6] eqn:ED; [|discriminate].
    intros E. injection E as <- <-. split; [exact Hc'|].
    apply disconnect_releases in ED. exact ED.
  - intros E. injection E as <- <-. split; [auto|]. apply EP.
  - discriminate.
Qed.


Lemma main_block_estopped (L v : num) (rb : Robot num) (st : State num) :
  (forall n, estopped rb n = true) ->
  motions (snd (main_block L v rb st)) = motions st /\
  sent (snd (main_block L v rb st)) = sent st /\
  fst (main_block L v rb st) = Val 1%Z.
Proof.
  intros Hest.
  unfold main_block, try_except, verify_not_estopped, bind, get_conn, attr_of,
    sdk_query, sdk_call, ret, raise.
  cbn -[walk_square].
  destruct (robot (conn st)); cbn -[walk_square]; [|auto].
  destruct (raises rb (length (trace st))) as [e|]; cbn -[walk_square].
  - destruct e; cbn; repeat split; obs_unchanged.
  - rewrite Hest. cbn. repeat split; obs_unchanged.
Qed.

(** X5.  A robot that reports an emergency stop whenever it is asked is
    never powered on, told to stand or sent a motion command by
    [main], whatever else happens, and [main] does not return 0. *)
Theorem estopped_robot_is_never_moved (h : string) (L v : num) (vb : bool)
    (rb : Robot num) (st : State num) :
  (forall n, estopped rb n = true) ->
  let run := main h L v vb rb st in
  motions (snd run) = motions st /\
  sent (snd run) = sent st /\
  fst run <> Val 0%Z.
Proof.
  intros Hest. cbv zeta. rewrite main_anatomy.
  destruct (main_preamble_keeps h vb) as [KS KM].
  specialize (KS rb st). specialize (KM rb st).
  destruct (main_preamble h vb rb st) as [[[|]|e] st4]; cbn [snd] in KS, KM.
  - destruct (@main_block_estopped L v rb st4 Hest) as [HM [HS HF]].
    destruct disconnect_keeps as [DS DM].
    rewrite try_finally_snd, (DM rb), (DS rb), HM, HS.
    split; [exact KM|]. split; [exact KS|].
    unfold try_finally.
    destruct (main_block L v rb st4) as [r5 st5]. cbn [fst] in HF. subst r5.
    destruct (disconnect rb st5) as [[[]|e] st6]; cbn; discriminate.
  - cbn. repeat split; try assumption. discriminate.
  - cbn. repeat split; try assumption. discriminate.
Qed.

End MainProperties.

Section Protocol.

Context {num : Type} {NUM : Numeric num}.

(** Inside the guarded block a command can only be sent after the
    estop check answered False and power-on, time sync and stand all
    succeeded, one directly after the other. *)
Lemma main_block_protocol (L v : num) (rb : Robot num) (st : State num) :
  sent (snd (main_block L v rb st)) <> sent st ->
  exists post,
    trace (snd (main_block L v rb st)) =
      trace st ++
      [Called is_estopped None; Called (robot_power_on 20) None;
       Called wait_for_sync None; Called (blocking_stand 10) None] ++ post /\
    estopped rb (length (trace st)) = false.
Proof.
  unfold main_block, verify_not_estopped, power_on, time_sync, stand_up.
  unfold try_except, bind, get_conn, attr_of, sdk_query, sdk_call, ret, raise,
    except_Exception, log.
  cbn -[walk_square].
  destruct (robot (conn st)) as [r|] eqn:Er; cbn -[walk_square];
    [|intros H; exfalso; apply H; reflexivity].
  repeat
    (first
       [ progress rewrite Er
       | progress cbn -[walk_square]
       | match goal with
         | |- context [raises rb ?n] => destruct (raises rb n) as [?e|]
         | |- context [is_Exception ?e] => destruct (is_Exception e) eqn:?
         | |- context [is_KeyboardInterrupt ?e] =>
             destruct (is_KeyboardInterrupt e) eqn:?
         | |- context [estopped rb ?n] => destruct (estopped rb n) eqn:?
         end ]);
    try (intros H; exfalso; apply H;
         unfold sent; cbn [trace snd]; rewrite ?submitted_app;
         cbn [submitted]; rewrite ?app_nil_r; reflexivity).
  all: intros _;
    match goal with
    | |- context [walk_square ?w ?L' ?v' ?t ?rb' ?s] =>
        destruct (extends_walk_square w L' v' t rb' s) as [evs Hevs];
        destruct (walk_square w L' v' t rb' s) as [[[|]|e] s'];
        cbn [snd negb] in *
    end;
    try (destruct (is_KeyboardInterrupt e); [|destruct (is_Exception e)]);
    cbn [snd]; exists evs; (split; [|reflexivity]);
    rewrite Hevs; cbn [trace]; rewrite <- !app_assoc; reflexivity.
Qed.

(** X4.  The call protocol of [main]: if any motion command reached the
    device, then earlier in the run, one directly after the other, the
    lease was acquired, the estop check answered "not estopped", and
    power-on, time sync and stand succeeded; no command was sent
    before. *)
Theorem commands_follow_the_protocol (h : string) (L v : num) (vb : bool)
    (rb : Robot num) (st : State num) :
  let run := main h L v vb rb st in
  sent (snd run) <> sent st ->
  exists pre post,
    trace (snd run) =
      pre ++
      [Called (LeaseKeepAlive_init true true) None;
       Called is_estopped None; Called (robot_power_on 20) None;
       Called wait_for_sync None; Called (blocking_stand 10) None] ++ post /\
    estopped rb (S (length pre)) = false /\
    submitted pre = sent st.
Proof.
  cbv zeta. rewrite main_anatomy.
  destruct (main_preamble_keeps (num := num) h vb) as [KS _].
  specialize (KS rb st).
  destruct (main_preamble h vb rb st) as [[[|]|e] st4] eqn:EP;
    cbn [snd] in KS; try (intros H; exfalso; apply H; exact KS).
  apply main_preamble_outcome in EP. destruct EP as [st3 [EA [S3 _]]].
  apply acquire_lease_sets in EA. destruct EA as [Htr _].
  destruct (disconnect_keeps (num := num)) as [DS _].
  rewrite try_finally_snd, (DS rb).
  intros H.
  destruct (@main_block_protocol L v rb st4) as [post [Hb He]];
    [rewrite KS; exact H|].
  destruct (extends_disconnect rb (snd (main_block L v rb st4))) as [evs Hd].
  exists (trace st3), (post ++ evs).
  split; [|split].
  - rewrite Hd, Hb, Htr. rewrite <- !app_assoc. reflexivity.
  - rewrite Htr, List.length_app, Nat.add_1_r in He. exact He.
  - exact S3.
Qed.

End Protocol.

Section ReleasedSdk.

Context {num : Type} {NUM : Numeric num}.

Variable rb : Robot num.

(** The builder of the installed SDK does not declare
    [max_vel_linear]. *)
Hypothesis undeclared :
  declares (mobility_params_keywords rb) "max_vel_linear" = false.

Lemma mobility_params_rejected (linear angular : num) (st : State num) :
  mobility_params linear angular rb st = (Exc TypeError, st).
Proof.
  unfold mobility_params. cbn [forallb]. rewrite undeclared. reflexivity.
Qed.

Ltac run_walk :=
  repeat
    (match goal with
     | |- _ => progress (unfold bind, ret); cbn
     | |- _ => progress (rewrite undeclared); cbn
     | |- context [raises rb ?n] => destruct (raises rb n) as [?e|]; cbn
     | |- context [seconds_to_duration rb ?d] =>
         destruct (seconds_to_duration rb d) as [?dur|?e]; cbn
     | |- context [is_Exception ?e] => destruct (is_Exception e); cbn
     end).

(** Behind such a builder [walk_square] ends in the first round of its
    submission loop, at the builder call: it does not return True, it
    has sent nothing and has made at most the two calls that read the
    pose. *)
Lemma walk_square_rejected (w : SquarePathWalker) (L v t : num)
    (st : State num) :
  let run := walk_square w L v t rb st in
  fst run <> Val true /\
  sent (snd run) = sent st /\
  exists evs, trace (snd run) = trace st ++ evs /\ length evs <= 2.
Proof.
  cbv zeta.
  unfold walk_square, try_except, bind, attr_of, sdk_query, sdk_call,
    mobility_params, raise, ret, except_Exception, log.
  destruct (state_client w); cbn;
    [|repeat split; try discriminate; exists []; rewrite app_nil_r; auto].
  run_walk;
    (split; [discriminate|]);
    (split;
     [unfold sent; cbn [trace]; rewrite ?submitted_app; cbn [submitted];
      rewrite ?app_nil_r; reflexivity|]);
    rewrite <- ?app_assoc; eexists; (split; [reflexivity|]); cbn; auto.
Qed.

(** The same for [walk_square_trajectory], which reaches the builder
    call only if the five deadlines were converted. *)
Lemma walk_square_trajectory_rejected (w : SquarePathWalker) (L v t : num)
    (st : State num) :
  let run := walk_square_trajectory w L v t rb st in
  fst run <> Val true /\
  sent (snd run) = sent st /\
  exists evs, trace (snd run) = trace st ++ evs /\ length evs <= 2.
Proof.
  cbv zeta.
  unfold walk_square_trajectory, try_except, bind, attr_of, sdk_query,
    sdk_call, sdk_local, mobility_params, raise, ret, except_Exception,
    getitem_last, log.
  destruct (state_client w); cbn;
    [|repeat split; try discriminate; exists []; rewrite app_nil_r; auto].
  run_walk;
    (split; [discriminate|]);
    (split;
     [unfold sent; cbn [trace]; rewrite ?submitted_app; cbn [submitted];
      rewrite ?app_nil_r; reflexivity|]);
    rewrite <- ?app_assoc; eexists; (split; [reflexivity|]); cbn; auto.
Qed.

(** C5, as amended.  For the same pose, side length and total time the
    two strategies compute the same five positions and headings, and
    the same deadlines up to their representation: the deadline of a
    point of [walk_square_trajectory] is the [Duration] that
    [seconds_to_duration] makes of the deadline [walk_square] attaches
    to the same waypoint, and the loop of [walk_square_trajectory]
    raises when one of these conversions does.  Behind a builder that
    does not declare [max_vel_linear] both strategies stop at the
    builder call, so that what they submit is the same: nothing. *)
Theorem strategies_same_geometry (w : SquarePathWalker) (T : SE3Pose num)
    (L v t : num) (st : State num) :
  (exists plan,
      fst (trajectory_points T L t rb st) = Val plan /\
      match fst (traj_points T L t rb st) with
      | Val trj =>
          map (fun tp => pose tp) trj = map fst plan /\
          Forall2
            (fun tp wp =>
               seconds_to_duration rb (snd wp) = Val (time_since_reference tp))
            trj plan
      | Exc e =>
          exists d, In d (deadlines plan) /\ seconds_to_duration rb d = Exc e
      end) /\
  sent (snd (walk_square w L v t rb st)) =
    sent (snd (walk_square_trajectory w L v t rb st)) /\
  sent (snd (walk_square w L v t rb st)) = sent st.
Proof.
  split.
  - exists (square_plan T L t).
    rewrite trajectory_points_run, traj_points_run. cbn [fst].
    split; [reflexivity|].
    destruct (as_trajectory (seconds_to_duration rb) (square_plan T L t))
      as [trj|e] eqn:E.
    + apply as_trajectory_poses in E. exact E.
    + apply as_trajectory_raises in E. exact E.
  - destruct (walk_square_rejected w L v t st) as [_ [H1 _]].
    destruct (walk_square_trajectory_rejected w L v t st) as [_ [H2 _]].
    cbv zeta in H1, H2. rewrite H1, H2. split; reflexivity.
Qed.

Section Cooperative.

Hypothesis no_failure : forall n, raises rb n = None.

Hypothesis never_estopped : forall n, estopped rb n = false.

Ltac run_calls :=
  repeat
    (progress
       (rewrite ?no_failure, ?never_estopped, ?undeclared;
        cbn [fst snd negb trace conn logged log robot sdk lease_keepalive
             lease_client robot_command_client robot_state_client power_client
             with_sdk with_robot with_lease_client with_lease_keepalive
             with_robot_command_client with_robot_state_client
             with_power_client SpotRobotConnection_init andb])).

Lemma main_preamble_ok (h : string) (vb : bool) (st : State num) :
  exists st4,
    main_preamble h vb rb st = (Val true, st4) /\
    trace st4 =
      trace st ++
      [ Called (create_standard_sdk "SpotClient") None;
        Called (create_robot h) None;
        Called (robot_authenticate "admin" "password") None;
        Called (ensure_client LeaseClient) None;
        Called (ensure_client RobotCommandClient) None;
        Called (ensure_client RobotStateClient) None;
        Called (ensure_client PowerClient) None;
        Called (LeaseKeepAlive_init true true) None ] /\
    logged st4 = logged st /\
    robot (conn st4) <> None /\
    lease_keepalive (conn st4) <> None /\
    robot_command_client (conn st4) <> None /\
    robot_state_client (conn st4) <> None.
Proof.
  unfold main_preamble, connect, authenticate, setup_clients, acquire_lease.
  unfold try_except, bind, put_conn, get_conn, assign, attr_of, sdk_call, ret,
    raise, except_Exception.
  run_calls.
  eexists. split; [reflexivity|]. cbn [trace conn logged].
  split; [rewrite <- !app_assoc; reflexivity|].
  cbn. repeat split; discriminate.
Qed.

Lemma disconnect_ok (st : State num) :
  robot (conn st) <> None ->
  lease_keepalive (conn st) <> None ->
  exists st',
    disconnect rb st = (Val tt, st') /\
    trace st' =
      trace st ++
      [ Entered_disconnect; Called LeaseKeepAlive_exit None;
        Called robot_shutdown None ] /\
    logged st' = logged st /\
    lease_keepalive (conn st') = None.
Proof.
  intros Hr Hk.
  unfold disconnect, release_lease, bind, get_conn, assign, sdk_call, ret.
  cbn [fst snd trace conn log].
  destruct (lease_keepalive (conn st)); [|contradiction]. run_calls.
  destruct (robot (conn st)); [|contradiction]. run_calls.
  eexists. split; [reflexivity|].
  cbn [trace conn logged log lease_keepalive with_lease_keepalive].
  split; [rewrite <- !app_assoc; reflexivity|]. split; reflexivity.
Qed.

(** The guarded block on a cooperative robot: every step succeeds up
    to [walk_square], which reads the pose, computes the plan and stops
    at the builder call. *)
Lemma main_block_stops_at_builder (L v : num) (st : State num) :
  robot (conn st) <> None ->
  robot_state_client (conn st) <> None ->
  exists st5,
    main_block L v rb st = (Val 1%Z, st5) /\
    conn st5 = conn st /\
    trace st5 =
      trace st ++
      [ Called is_estopped None; Called (robot_power_on 20) None;
        Called wait_for_sync None; Called (blocking_stand 10) None;
        Called get_robot_state None; Called get_vision_tform_body None ] /\
    logged st5 =
      logged st ++
      point_records
        (square_plan (vision_tform_body rb (length (trace st) + 5)) L (of_int 20)).
Proof.
  intros Hrobot Hsc.
  unfold main_block, verify_not_estopped, power_on, time_sync, stand_up,
    walk_square.
  unfold try_except, bind, get_conn, attr_of, sdk_query, sdk_call, ret, raise,
    except_Exception.
  destruct (robot (conn st)) as [r|] eqn:Er; [|contradiction].
  destruct (robot_state_client (conn st)) as [sc|] eqn:Esc; [|contradiction].
  repeat
    (progress
       (rewrite ?no_failure, ?never_estopped, ?Er, ?Esc;
        cbn -[trajectory_points for_in] )).
  rewrite trajectory_points_run. cbn [square_plan for_in].
  unfold bind. rewrite mobility_params_rejected. cbn.
  eexists. split; [reflexivity|].
  unfold with_logged, log. cbn [conn trace logged].
  split; [reflexivity|].
  split; [rewrite <- !app_assoc; reflexivity|].
  rewrite <- !app_assoc, !List.length_app. cbn [app length Nat.add]. reflexivity.
Qed.

(** X6.  On a robot whose calls all succeed and which is not estopped,
    behind a builder that does not declare [max_vel_linear], [main]
    does not walk the square: it connects, takes the lease, powers on,
    synchronises and stands the robot up, reads its pose, and then
    [walk_square] stops at the builder call before the clock is read or
    a command is sent; [main] releases the lease, shuts down and
    returns 1. *)
Theorem cooperative_run_stops_at_the_builder (h : string) (L v : num)
    (vb : bool) (st : State num) :
  exists st',
    main h L v vb rb st = (Val 1%Z, st') /\
    trace st' =
      trace st ++
      [ Called (create_standard_sdk "SpotClient") None;
        Called (create_robot h) None;
        Called (robot_authenticate "admin" "password") None;
        Called (ensure_client LeaseClient) None;
        Called (ensure_client RobotCommandClient) None;
        Called (ensure_client RobotStateClient) None;
        Called (ensure_client PowerClient) None;
        Called (LeaseKeepAlive_init true true) None;
        Called is_estopped None; Called (robot_power_on 20) None;
        Called wait_for_sync None; Called (blocking_stand 10) None;
        Called get_robot_state None; Called get_vision_tform_body None;
        Entered_disconnect; Called LeaseKeepAlive_exit None;
        Called robot_shutdown None ] /\
    sent st' = sent st /\
    lease_keepalive (conn st') = None.
Proof.
  rewrite main_anatomy.
  destruct (main_preamble_ok h vb st) as [st4 [EP [T4 [_ [R4 [K4 [_ S4]]]]]]].
  rewrite EP.
  destruct (@main_block_stops_at_builder L v st4 R4 S4)
    as [st5 [EB [C5 [T5 _]]]].
  destruct (@disconnect_ok st5) as [st6 [ED [T6 [_ K6]]]];
    [rewrite C5; exact R4 | rewrite C5; exact K4 |].
  unfold try_finally. rewrite EB, ED.
  eexists. split; [reflexivity|].
  assert (Ht : trace st6 = trace st ++
      [ Called (create_standard_sdk "SpotClient") None;
        Called (create_robot h) None;
        Called (robot_authenticate "admin" "password") None;
        Called (ensure_client LeaseClient) None;
        Called (ensure_client RobotCommandClient) None;
        Called (ensure_client RobotStateClient) None;
        Called (ensure_client PowerClient) None;
        Called (LeaseKeepAlive_init true true) None;
        Called is_estopped None; Called (robot_power_on 20) None;
        Called wait_for_sync None; Called (blocking_stand 10) None;
        Called get_robot_state None; Called get_vision_tform_body None;
        Entered_disconnect; Called LeaseKeepAlive_exit None;
        Called robot_shutdown None ]).
  { rewrite T6, T5, T4. rewrite <- !app_assoc. reflexivity. }
  split; [exact Ht|]. split; [|exact K6].
  unfold sent. rewrite Ht, submitted_app. cbn [submitted]. apply app_nil_r.
Qed.

End Cooperative.

End ReleasedSdk.

Ltac keeps_relogin_walk :=
  apply keeps_try_except; [keeps_walk|];
  let e := fresh "e" in
  let hd := fresh "hd" in
  let E := fresh "E" in
  intros e hd; destruct (is_InvalidLoginError e); try discriminate;
  intros E; injection E as <-; keeps_walk.

Section EdgeCases.

Context {num : Type} {NUM : Numeric num}.

(** X12.  Used before [connect] (no robot object yet), [authenticate],
    [setup_clients], [power_on] and [time_sync] return False without
    making any call or touching the state, because the AttributeError
    is swallowed; [verify_not_estopped], which has no guard, raises
    it. *)
Theorem operations_before_connect (rb : Robot num) (st : State num)
    (u p : string) (timeout : Z) :
  robot (conn st) = None ->
  authenticate u p rb st = (Val false, st) /\
  setup_clients rb st = (Val false, st) /\
  power_on timeout rb st = (Val false, st) /\
  time_sync rb st = (Val false, st) /\
  verify_not_estopped rb st = (Exc AttributeError, st).
Proof.
  intros H.
  unfold authenticate, setup_clients, power_on, time_sync, verify_not_estopped,
    try_except, bind, get_conn, attr_of, raise, ret, except_Exception.
  cbn. rewrite H. cbn. repeat split; reflexivity.
Qed.

(** X13.  A walker built before [setup_clients] has no clients: without a
    state client both walks return False without making a call;
    without a command client neither walk ever submits a command or
    returns True. *)
Theorem walker_without_clients (w : SquarePathWalker) (L v t : num)
    (rb : Robot num) (st : State num) :
  (state_client w = None ->
   walk_square w L v t rb st = (Val false, st) /\
   walk_square_trajectory w L v t rb st = (Val false, st)) /\
  (command_client w = None ->
   sent (snd (walk_square w L v t rb st)) = sent st /\
   fst (walk_square w L v t rb st) <> Val true /\
   sent (snd (walk_square_trajectory w L v t rb st)) = sent st /\
   fst (walk_square_trajectory w L v t rb st) <> Val true).
Proof.
  split.
  - intros H.
    unfold walk_square, walk_square_trajectory, try_except, bind, attr_of,
      raise, except_Exception.
    rewrite H. cbn. auto.
  - intros H.
    unfold walk_square, walk_square_trajectory, try_except, bind, attr_of,
      sdk_query, sdk_call, sdk_local, mobility_params, raise, ret,
      except_Exception, getitem_last, log.
    rewrite H.
    destruct (state_client w); cbn;
      [|repeat split; try reflexivity; discriminate].
    repeat
      (match goal with
       | |- _ => progress (unfold bind, ret); cbn
       | |- context [raises rb ?n] => destruct (raises rb n) as [?e|]; cbn
       | |- context [seconds_to_duration rb ?d] =>
           destruct (seconds_to_duration rb d) as [?dur|?e]; cbn
       | |- context [declares ?k ?n] => destruct (declares k n); cbn
       | |- context [is_Exception ?e] => destruct (is_Exception e); cbn
       end);
      repeat split; try discriminate;
      unfold sent; cbn [trace]; rewrite ?submitted_app; cbn [submitted];
      rewrite ?app_nil_r; reflexivity.
Qed.

(** X14.  Acquiring and then releasing the lease is a round trip on the
    connection object: it is as before, and the run has made exactly
    the two lease calls.  Releasing when no lease is held does
    nothing. *)
Theorem acquire_release_round_trip (rb : Robot num) (st st1 st2 : State num) :
  lease_keepalive (conn st) = None ->
  release_lease rb st = (Val tt, st) /\
  (acquire_lease rb st = (Val true, st1) ->
   release_lease rb st1 = (Val tt, st2) ->
   conn st2 = conn st /\
   trace st2 =
     trace st ++ [Called (LeaseKeepAlive_init true true) None;
                  Called LeaseKeepAlive_exit None]).
Proof.
  intros H. split.
  - unfold release_lease, bind, get_conn. cbn. rewrite H. reflexivity.
  - intros E1 E2. apply acquire_lease_sets in E1. destruct E1 as [Ht Hc].
    revert E2.
    unfold release_lease, bind, get_conn, sdk_call, assign, ret, log.
    cbn. rewrite Hc. cbn.
    destruct (raises rb (length (trace st1))); [discriminate|].
    intros E. apply (f_equal snd) in E. cbn [snd] in E. subst st2. cbn.
    rewrite Hc, Ht. split.
    + destruct (conn st). cbn in *. subst. reflexivity.
    + rewrite <- app_assoc. reflexivity.
Qed.

(** X17.  None of these operations modifies the connection object, however
    they end: they only talk to the robot. *)
Theorem talking_operations_keep_connection (w : SquarePathWalker) (L v t : num)
    (timeout : Z) (u p : string) (rb : Robot num) (st : State num) :
  conn (snd (authenticate u p rb st)) = conn st /\
  conn (snd (verify_not_estopped rb st)) = conn st /\
  conn (snd (power_on timeout rb st)) = conn st /\
  conn (snd (time_sync rb st)) = conn st /\
  conn (snd (stand_up w timeout rb st)) = conn st /\
  conn (snd (walk_square w L v t rb st)) = conn st /\
  conn (snd (walk_square_trajectory w L v t rb st)) = conn st.
Proof.
  assert (H1 : keeps (num := num) (@conn num) (authenticate u p)).
  { unfold authenticate. apply keeps_guard; [|keeps_walk].
    apply keeps_bind; [keeps_relogin_walk | intro; keeps_walk]. }
  assert (H2 : keeps (num := num) (@conn num) verify_not_estopped)
    by (unfold verify_not_estopped; keeps_walk).
  assert (H3 : keeps (num := num) (@conn num) (power_on timeout))
    by (unfold power_on; keeps_walk).
  assert (H4 : keeps (num := num) (@conn num) time_sync)
    by (unfold time_sync; keeps_walk).
  assert (H5 : keeps (@conn num) (stand_up w timeout))
    by (unfold stand_up; keeps_walk).
  assert (H6 : keeps (@conn num) (walk_square w L v t))
    by (unfold walk_square; keeps_walk).
  assert (H7 : keeps (@conn num) (walk_square_trajectory w L v t))
    by (unfold walk_square_trajectory; keeps_walk).
  repeat split; [apply H1|apply H2|apply H3|apply H4|apply H5|apply H6|apply H7].
Qed.

(** X16.  [authenticate] tries the interactive login only directly after
    [robot.authenticate] was rejected with InvalidLoginError, and only
    once: the calls it makes are none (no robot object), the one login
    call, or the rejected login call followed by the interactive
    one. *)
Theorem interactive_login_only_after_rejection (u p : string)
    (rb : Robot num) (st : State num) :
  exists evs,
    trace (snd (authenticate u p rb st)) = trace st ++ evs /\
    (evs = [] \/
     (exists r, evs = [Called (robot_authenticate u p) r] /\
                r <> Some InvalidLoginError) \/
     (exists r, evs = [Called (robot_authenticate u p) (Some InvalidLoginError);
                       Called util_authenticate r])).
Proof.
  unfold authenticate, try_except, bind, get_conn, attr_of, sdk_call, ret, raise,
    except_Exception, log.
  cbn. destruct (robot (conn st)); cbn;
    [|exists []; rewrite app_nil_r; auto].
  destruct (raises rb (length (trace st))) as [e|]; cbn.
  - destruct e; cbn;
      try (eexists; split; [reflexivity|]; right; left; eexists;
           split; [reflexivity|discriminate]).
    destruct (raises rb _) as [e|]; cbn;
      [destruct (is_Exception e); cbn|];
      (eexists; split; [rewrite <- app_assoc; reflexivity|]; right; right;
       eexists; reflexivity).
  - eexists. split; [reflexivity|]. right. left. eexists.
    split; [reflexivity|discriminate].
Qed.

Lemma main_value (h : string) (L v : num) (vb : bool) (rb : Robot num)
    (st st' : State num) (c : Z) :
  main h L v vb rb st = (Val c, st') -> c = 0%Z \/ c = 1%Z.
Proof.
  rewrite main_anatomy.
  destruct (main_preamble h vb rb st) as [[[|]|e] st4].
  - unfold try_finally.
    destruct (main_block_returns L v rb st4) as [c' [Hc Hc']].
    destruct (main_block L v rb st4) as [r5 st5]. cbn [fst] in Hc. subst r5.
    destruct (disconnect rb st5) as [[[]|e] st6]; [|discriminate].
    intros E. injection E as <- _. exact Hc'.
  - intros E. injection E as <- _. auto.
  - discriminate.
Qed.

(** [walk_square] returns True only behind a builder that declares the
    two velocity keywords: otherwise the first round of the submission
    loop raises TypeError. *)
Lemma walk_square_True_declared (w : SquarePathWalker) (L v t : num)
    (rb : Robot num) (st st' : State num) :
  walk_square w L v t rb st = (Val true, st') ->
  forallb (declares (mobility_params_keywords rb))
          ["max_vel_linear"; "max_vel_ang"]%string = true.
Proof.
  destruct (forallb _ _) eqn:Ek; [reflexivity|]. intros E. exfalso. revert E.
  unfold walk_square, try_except.
  match goal with
  | |- context [match ?body rb st with _ => _ end] =>
      destruct (body rb st) as [[b|e] stb] eqn:Eb
  end.
  2: { unfold except_Exception. destruct (is_Exception e); discriminate. }
  exfalso. revert Eb.
  rewrite bind_unfold. destruct (attr_of (state_client w) rb st) as [[?|?] ?];
    [|discriminate].
  rewrite bind_unfold.
  match goal with
  | |- context [sdk_call ?c rb ?s] => destruct (sdk_call c rb s) as [[?|?] ?]
  end; [|discriminate].
  rewrite bind_unfold.
  match goal with
  | |- context [sdk_query ?c ?a rb ?s] =>
      destruct (sdk_query c a rb s) as [[T|?] ?]
  end; [|discriminate].
  rewrite bind_unfold, trajectory_points_run.
  rewrite bind_unfold. cbn [square_plan for_in].
  rewrite bind_unfold. rewrite bind_unfold.
  unfold mobility_params at 1. rewrite Ek. discriminate.
Qed.

(** The guarded block of [main] yields 0 only after [walk_square]
    returned True. *)
Lemma main_block_0_walked (L v : num) (rb : Robot num) (st st' : State num) :
  main_block L v rb st = (Val 0%Z, st') ->
  exists w s s', walk_square w L v (of_int 20) rb s = (Val true, s').
Proof.
  unfold main_block, try_except.
  match goal with
  | |- context [match ?body rb st with _ => _ end] =>
      destruct (body rb st) as [[c|e] stb] eqn:Eb
  end.
  2: { destruct e; cbn; discriminate. }
  intros E. injection E as -> ->. revert Eb.
  repeat
    (rewrite bind_unfold;
     match goal with
     | |- context [match ?m rb ?s with _ => _ end] =>
         destruct (m rb s) as [[[|]|?] ?]; cbn [negb]
     end;
     try discriminate).
  rewrite bind_unfold. unfold get_conn at 1. cbv beta iota.
  rewrite bind_unfold.
  match goal with
  | |- context [match ?m rb ?s with _ => _ end] =>
      destruct (m rb s) as [[[|]|?] ?]; cbn [negb]
  end; try discriminate.
  rewrite bind_unfold.
  match goal with
  | |- context [walk_square ?w L v ?t rb ?s] =>
      destruct (walk_square w L v t rb s) as [[[|]|?] s'] eqn:Ew; cbn [negb];
      try discriminate; intros _; exists w, s, s'; exact Ew
  end.
Qed.

Lemma main_0_declared (h : string) (L v : num) (vb : bool) (rb : Robot num)
    (st st' : State num) :
  main h L v vb rb st = (Val 0%Z, st') ->
  forallb (declares (mobility_params_keywords rb))
          ["max_vel_linear"; "max_vel_ang"]%string = true.
Proof.
  rewrite main_anatomy.
  destruct (main_preamble h vb rb st) as [[[|]|e] st4]; try discriminate.
  unfold try_finally.
  destruct (main_block L v rb st4) as [r5 st5] eqn:EB.
  destruct (disconnect rb st5) as [[[]|e] st6]; [|discriminate].
  intros E. injection E as -> _.
  apply main_block_0_walked in EB. destruct EB as [w [s [s' Ew]]].
  eapply walk_square_True_declared. exact Ew.
Qed.

(** X9.  The process ends with status 0, 1 or 2 or by the interrupt
    signal; status 2 is argparse's, for a command line it cannot parse.
    Status 0 means that the help was asked for, or that the arguments
    passed the validation, the builder accepted the velocity keywords
    and no call of the run raised, save for a rejected first login that
    the interactive login made good.  So behind a builder that does
    not declare [max_vel_linear], which is the released SDK, asking
    for the help is the only way to status 0. *)
Theorem exit_status_0_means_success (parsed : parse_outcome num)
    (rb : Robot num) (st : State num) :
  let run := dunder_main parsed rb st in
  (exit_status (fst run) = Exited 0 \/
   exit_status (fst run) = Exited 1 \/
   exit_status (fst run) = Exited 2 \/
   exit_status (fst run) = Killed_by_SIGINT) /\
  (exit_status (fst run) = Exited 2 <-> parsed = Usage_error) /\
  (exit_status (fst run) = Exited 0 ->
   parsed = Help_requested \/
   exists args,
     parsed = Namespace args /\
     nleb (args_side_length args) (of_int 0) = false /\
     nleb (args_velocity args) (of_int 0) = false /\
     nltb (of_int 2) (args_velocity args) = false /\
     forallb (declares (mobility_params_keywords rb))
             ["max_vel_linear"; "max_vel_ang"]%string = true /\
     (raised (trace (snd run)) = raised (trace st) \/
      raised (trace (snd run)) =
        raised (trace st) ++
        [Called (robot_authenticate "admin" "password") (Some InvalidLoginError)])) /\
  (declares (mobility_params_keywords rb) "max_vel_linear" = false ->
   (exit_status (fst run) = Exited 0 <-> parsed = Help_requested)).
Proof.
  cbv zeta.
  assert (Hmain : forall args,
            let run := dunder_main (Namespace args) rb st in
            (exit_status (fst run) = Exited 0 \/
             exit_status (fst run) = Exited 1 \/
             exit_status (fst run) = Killed_by_SIGINT) /\
            (exit_status (fst run) = Exited 0 ->
             nleb (args_side_length args) (of_int 0) = false /\
             nleb (args_velocity args) (of_int 0) = false /\
             nltb (of_int 2) (args_velocity args) = false /\
             forallb (declares (mobility_params_keywords rb))
                     ["max_vel_linear"; "max_vel_ang"]%string = true /\
             (raised (trace (snd run)) = raised (trace st) \/
              raised (trace (snd run)) =
                raised (trace st) ++
                [Called (robot_authenticate "admin" "password")
                        (Some InvalidLoginError)]))).
  { intros args. cbv zeta. unfold dunder_main.
    destruct (nleb (args_side_length args) (of_int 0)); cbn [orb].
    { cbn. split; [auto|discriminate]. }
    destruct (nleb (args_velocity args) (of_int 0)); cbn [orb].
    { cbn. split; [auto|discriminate]. }
    destruct (nltb (of_int 2) (args_velocity args)).
    { cbn. split; [auto|discriminate]. }
    destruct (main (args_hostname args) (args_side_length args)
                (args_velocity args) (args_verbose args) rb st)
      as [[c|e] st'] eqn:E; cbn [fst snd exit_status].
    - destruct (main_value _ _ _ _ _ _ E) as [-> | ->].
      + split; [auto|]. intros _. repeat split.
        * eapply main_0_declared. exact E.
        * eapply main_returns_0_only_on_success. exact E.
      + split; [auto|]. discriminate.
    - destruct (is_Exception e); split; auto; discriminate. }
  destruct parsed as [args| |].
  - destruct (Hmain args) as [H1 H2]. cbv zeta in H1, H2.
    split; [tauto|].
    split.
    { split; [|discriminate]. intros E. rewrite E in H1.
      destruct H1 as [H|[H|H]]; discriminate H. }
    split.
    { intros E. right. exists args. split; [reflexivity|]. apply H2. exact E. }
    intros Hk. split; [|discriminate].
    intros E. apply H2 in E. destruct E as [_ [_ [_ [E _]]]].
    cbn [forallb] in E. rewrite Hk in E. discriminate E.
  - cbn. split; [auto|]. split; [tauto|]. split; [discriminate|].
    intros _. split; discriminate.
  - cbn. split; [auto|]. split; [split; discriminate|]. split; [auto|].
    intros _. tauto.
Qed.

(** C7, as amended.  With the namespace argparse returns, the entry
    point exits with status 1 whenever the validation fails
    ([side_length <= 0], [velocity <= 0] or [velocity > 2.0]), before
    any call is made; otherwise the process ends with status 0 or 1 or
    by the interrupt signal, with status 0 only when [main] returned 0,
    that is when no call of the run raised, save for a rejected first
    login that the interactive login made good; so a run in which a
    call failed ends with status 1, or by the signal when a
    KeyboardInterrupt escaped.  Before the block runs, argparse itself
    ends the process: with status 2 for a command line it cannot parse,
    with status 0 after printing the help. *)
Theorem entry_point_exit_codes (parsed : parse_outcome num) (rb : Robot num)
    (st : State num) :
  let run := dunder_main parsed rb st in
  let status := exit_status (fst run) in
  let relogin :=
    Called (num := num) (robot_authenticate "admin" "password")
           (Some InvalidLoginError) in
  (forall args,
      parsed = Namespace args ->
      (nleb (args_side_length args) (of_int 0) = true \/
       nleb (args_velocity args) (of_int 0) = true \/
       nltb (of_int 2) (args_velocity args) = true ->
       run = (Val 1%Z, st)) /\
      (status = Exited 0 \/ status = Exited 1 \/ status = Killed_by_SIGINT) /\
      (status = Exited 0 ->
       fst run = Val 0%Z /\
       (raised (trace (snd run)) = raised (trace st) \/
        raised (trace (snd run)) = raised (trace st) ++ [relogin])) /\
      (raised (trace (snd run)) <> raised (trace st) ->
       raised (trace (snd run)) <> raised (trace st) ++ [relogin] ->
       status = Exited 1 \/ status = Killed_by_SIGINT) /\
      (status = Killed_by_SIGINT -> fst run = Exc KeyboardInterrupt)) /\
  (parsed = Usage_error -> run = (Val 2%Z, st)) /\
  (parsed = Help_requested -> run = (Val 0%Z, st)).
Proof.
  cbv zeta. split; [|split; intros ->; reflexivity].
  intros args ->. split.
  { intros [H|H].
    - apply dunder_main_rejects_side_length. exact H.
    - apply dunder_main_rejects_velocity. exact H. }
  match goal with
  | |- ?tri /\ ?succ /\ _ /\ ?sig =>
      assert (H : tri /\ succ /\ sig)
  end.
  { unfold dunder_main.
    destruct (nleb (args_side_length args) (of_int 0)); cbn [orb].
    { cbn. repeat split; auto; discriminate. }
    destruct (nleb (args_velocity args) (of_int 0)); cbn [orb].
    { cbn. repeat split; auto; discriminate. }
    destruct (nltb (of_int 2) (args_velocity args)).
    { cbn. repeat split; auto; discriminate. }
    destruct (main (args_hostname args) (args_side_length args)
                (args_velocity args) (args_verbose args) rb st)
      as [[c|e] st'] eqn:E; cbn [fst snd exit_status].
    - destruct (main_value _ _ _ _ _ _ E) as [-> | ->].
      + split; [auto|]. split; [|discriminate].
        intros _. split; [reflexivity|].
        eapply main_returns_0_only_on_success. exact E.
      + split; [auto|]. split; discriminate.
    - destruct e; cbn; (split; [auto|]); split; try discriminate; reflexivity. }
  destruct H as [Htri [Hsucc Hsig]].
  split; [exact Htri|]. split; [exact Hsucc|]. split; [|exact Hsig].
  intros N1 N2. destruct Htri as [H0|[H1|H2]]; [|auto|auto].
  exfalso. destruct (Hsucc H0) as [_ [R|R]]; [exact (N1 R) | exact (N2 R)].
Qed.

(** X10.  Arguments that fail the validation end the program with status 1
    before the robot is contacted: no call is made and nothing is
    created. *)
Theorem invalid_arguments_exit_without_contact (args : Args num)
    (rb : Robot num) (st : State num) :
  nleb (args_side_length args) (of_int 0) = true \/
  nleb (args_velocity args) (of_int 0) = true \/
  nltb (of_int 2) (args_velocity args) = true ->
  dunder_main (Namespace args) rb st = (Val 1%Z, st) /\
  exit_status (fst (dunder_main (Namespace args) rb st)) = Exited 1.
Proof.
  intros H.
  assert (E : dunder_main (Namespace args) rb st = (Val 1%Z, st)).
  { destruct H as [H|H].
    - apply dunder_main_rejects_side_length. exact H.
    - apply dunder_main_rejects_velocity. exact H. }
  rewrite E. split; reflexivity.
Qed.

End EdgeCases.


Section MoreTeardown.

Context {num : Type} {NUM : Numeric num}.

(** X3.  When [walk_square_trajectory] returns True the run ends with a
    reading of the clock, the single command with end time that reading
    plus [total_time], and a wait for the id issued for that command
    with timeout [total_time + 5].  Unlike [walk_square] it waits
    whatever the id is. *)
Theorem walk_square_trajectory_always_waits (w : SquarePathWalker)
    (L v t : num) (rb : Robot num) (st st' : State num) :
  walk_square_trajectory w L v t rb st = (Val true, st') ->
  exists pre cmd,
    trace st' =
      pre ++
      [Called time_time None;
       Called (robot_command cmd (nadd (clock rb (length pre)) t)) None;
       Called (block_for_trajectory_cmd (issued_id rb (S (length pre)))
                 (nadd t (of_int 5))) None].
Proof.
  unfold walk_square_trajectory, try_except, bind, attr_of, sdk_query,
    sdk_call, sdk_local, mobility_params, ret, raise, except_Exception,
    getitem_last, log.
  destruct (state_client w); cbn; [|discriminate].
  repeat
    (match goal with
     | |- _ => progress (unfold bind, ret); cbn
     | |- context [raises rb ?n] => destruct (raises rb n) as [?e|]; cbn
     | |- context [seconds_to_duration rb ?d] =>
         destruct (seconds_to_duration rb d) as [?dur|?e]; cbn
     | |- context [declares ?k ?n] => destruct (declares k n); cbn
     | |- context [is_Exception ?e] => destruct (is_Exception e); cbn
     | |- context [command_client w] => destruct (command_client w); cbn
     end);
    try discriminate.
  intros E. apply (f_equal snd) in E. cbn [snd] in E. subst st'. cbn [trace].
  exists (trace st ++ [Called get_robot_state None;
                       Called get_vision_tform_body None]).
  eexists.
  rewrite <- !app_assoc. cbn [app].
  rewrite !List.length_app. cbn [length].
  replace (S (length (trace st) + 2)) with (length (trace st) + 3) by lia.
  reflexivity.
Qed.

(** X15.  How [disconnect] fails.  If the release of the lease raises, no
    shutdown is attempted and the connection object is unchanged, so
    the keep-alive stays recorded and a later [disconnect] tries again;
    if the shutdown raises, the lease has already been released. *)
Theorem disconnect_failure_modes (rb : Robot num) (st st' : State num)
    (e : exn) :
  disconnect rb st = (Exc e, st') ->
  (trace st' =
     trace st ++ [Entered_disconnect; Called LeaseKeepAlive_exit (Some e)] /\
   conn st' = conn st /\ lease_keepalive (conn st) <> None) \/
  (exists pre,
      trace st' = pre ++ [Called robot_shutdown (Some e)] /\
      conn st' = with_lease_keepalive None (conn st)).
Proof.
  unfold disconnect, release_lease, bind, get_conn, sdk_call, assign, ret, log.
  cbn. destruct (lease_keepalive (conn st)) as [k|] eqn:Ek; cbn.
  - destruct (raises rb _) as [e1|]; cbn.
    + intros E. injection E as <- <-. left. cbn.
      rewrite <- app_assoc. repeat split. discriminate.
    + destruct (robot (conn st)); cbn; [|discriminate].
      destruct (raises rb _) as [e2|]; cbn; [|discriminate].
      intros E. injection E as <- <-. right. cbn. eexists. split; reflexivity.
  - destruct (robot (conn st)); cbn; [|discriminate].
    destruct (raises rb _) as [e2|]; cbn; [|discriminate].
    intros E. injection E as <- <-. right. cbn. eexists.
    split; [reflexivity|]. symmetry. apply with_lease_keepalive_None_id.
    exact Ek.
Qed.

End MoreTeardown.

Lemma walk_square_trajectory_always_waits_witness :
  exists pre cmd,
    trace (snd (walk_square_trajectory (NUM := F) ready_walker 1%float
                  0.5%float 20%float (with_velocity_keywords cooperative_robot)
                  initial_state)) =
      pre ++
      [Called time_time None;
       Called (robot_command cmd
                 (PrimFloat.add (clock cooperative_robot (length pre)) 20)) None;
       Called (block_for_trajectory_cmd
                 (issued_id cooperative_robot (S (length pre))) 25%float) None].
Proof.
  apply (walk_square_trajectory_always_waits (NUM := F) ready_walker 1%float
           0.5%float 20%float (with_velocity_keywords cooperative_robot)
           initial_state).
  vm_compute. reflexivity.
Defined.

Lemma disconnect_failure_modes_witness :
  let st' := snd (disconnect (failing_robot 1) leased_state) in
  (trace st' =
     trace leased_state ++
     [Entered_disconnect; Called LeaseKeepAlive_exit (Some (SdkError 0))] /\
   conn st' = conn leased_state /\
   lease_keepalive (conn leased_state) <> None) \/
  (exists pre,
      trace st' = pre ++ [Called robot_shutdown (Some (SdkError 0))] /\
      conn st' = with_lease_keepalive None (conn leased_state)).
Proof.
  apply (disconnect_failure_modes (failing_robot 1) leased_state).
  vm_compute. reflexivity.
Defined.

(** * The properties at concrete inputs *)

Lemma walk_square_waits_for_last_command_witness :
  exists pre cmd end_time,
    let id := issued_id cooperative_robot (length pre) in
    trace (snd (walk_square (NUM := F) ready_walker 1%float 0.5%float 20%float
                  (with_velocity_keywords cooperative_robot) initial_state)) =
      pre ++ [Called (robot_command cmd end_time) None;
              Called (time_sleep (tenth (NUM := F))) None] ++
      (if (id =? 0)%Z then []
       else [Called (block_for_trajectory_cmd id 25%float) None]).
Proof.
  apply (walk_square_waits_for_last_command (NUM := F) ready_walker 0.5%float
           1%float 20%float (with_velocity_keywords cooperative_robot)
           initial_state).
  vm_compute. reflexivity.
Defined.

Lemma true_results_store_handles_witness :
  let st0 : State float := initial_state in
  let st1 := snd (connect cooperative_robot st0) in
  let st2 := snd (setup_clients cooperative_robot st1) in
  let st3 := snd (acquire_lease cooperative_robot st2) in
  (sdk (conn st1) <> None /\ robot (conn st1) <> None) /\
  (robot (conn st1) <> None /\
   lease_client (conn st2) <> None /\
   robot_command_client (conn st2) <> None /\
   robot_state_client (conn st2) <> None /\
   power_client (conn st2) <> None) /\
  lease_keepalive (conn st3) <> None.
Proof.
  intros st0 st1 st2 st3.
  split; [|split].
  - apply (proj1 (true_results_store_handles cooperative_robot st0 st1)).
    vm_compute. reflexivity.
  - apply (proj1 (proj2 (true_results_store_handles cooperative_robot st1 st2))).
    vm_compute. reflexivity.
  - apply (proj2 (proj2 (true_results_store_handles cooperative_robot st2 st3))).
    vm_compute. reflexivity.
Defined.

Lemma main_returns_without_lease_witness :
  (1 = 0 \/ 1 = 1)%Z /\
  lease_keepalive
    (conn (snd (main (NUM := F) "192.168.1.20" 1%float 0.5%float false
                  cooperative_robot initial_state))) = None.
Proof.
  apply (main_returns_without_lease (NUM := F) "192.168.1.20" 1%float
           0.5%float false cooperative_robot initial_state).
  vm_compute. reflexivity.
Defined.


Lemma estopped_robot_is_never_moved_witness :
  let run := main (NUM := F) "192.168.1.20" 1%float 0.5%float false
                  estopped_robot initial_state in
  motions (snd run) = motions (num := float) initial_state /\
  sent (snd run) = sent (num := float) initial_state /\
  fst run <> Val 0%Z.
Proof.
  apply (estopped_robot_is_never_moved (NUM := F)).
  intros n. reflexivity.
Defined.

Lemma commands_follow_the_protocol_witness :
  let run := main (NUM := F) "192.168.1.20" 1%float 0.5%float false
                  (with_velocity_keywords cooperative_robot) initial_state in
  exists pre post,
    trace (snd run) =
      pre ++
      [Called (LeaseKeepAlive_init true true) None;
       Called is_estopped None; Called (robot_power_on 20) None;
       Called wait_for_sync None; Called (blocking_stand 10) None] ++ post /\
    estopped cooperative_robot (S (length pre)) = false /\
    submitted pre = sent (num := float) initial_state.
Proof.
  apply (commands_follow_the_protocol (NUM := F) "192.168.1.20" 1%float
           0.5%float false (with_velocity_keywords cooperative_robot)
           initial_state).
  vm_compute. discriminate.
Defined.


Lemma operations_before_connect_witness :
  authenticate "admin" "password" cooperative_robot initial_state =
    (Val false, initial_state) /\
  setup_clients cooperative_robot initial_state = (Val false, initial_state) /\
  power_on 20 cooperative_robot initial_state = (Val false, initial_state) /\
  time_sync cooperative_robot initial_state = (Val false, initial_state) /\
  verify_not_estopped cooperative_robot initial_state =
    (Exc AttributeError, initial_state).
Proof.
  apply (operations_before_connect cooperative_robot initial_state).
  reflexivity.
Defined.

Lemma walker_without_clients_witness :
  let w := {| command_client := None; state_client := None |} in
  (walk_square (NUM := F) w 1%float 0.5%float 20%float cooperative_robot
     initial_state = (Val false, initial_state) /\
   walk_square_trajectory (NUM := F) w 1%float 0.5%float 20%float
     cooperative_robot initial_state = (Val false, initial_state)) /\
  (sent (snd (walk_square (NUM := F) w 1%float 0.5%float 20%float
                cooperative_robot initial_state)) = sent initial_state /\
   fst (walk_square (NUM := F) w 1%float 0.5%float 20%float cooperative_robot
          initial_state) <> Val true /\
   sent (snd (walk_square_trajectory (NUM := F) w 1%float 0.5%float 20%float
                cooperative_robot initial_state)) = sent initial_state /\
   fst (walk_square_trajectory (NUM := F) w 1%float 0.5%float 20%float
          cooperative_robot initial_state) <> Val true).
Proof.
  intros w.
  pose proof (walker_without_clients (NUM := F) w 1%float 0.5%float 20%float
                cooperative_robot initial_state) as [H1 H2].
  split; [apply H1 | apply H2]; reflexivity.
Defined.

Lemma acquire_release_round_trip_witness :
  let st : State float := initial_state in
  let st1 := snd (acquire_lease cooperative_robot st) in
  let st2 := snd (release_lease cooperative_robot st1) in
  release_lease cooperative_robot st = (Val tt, st) /\
  (conn st2 = conn st /\
   trace st2 =
     trace st ++ [Called (LeaseKeepAlive_init true true) None;
                  Called LeaseKeepAlive_exit None]).
Proof.
  intros st st1 st2.
  pose proof (acquire_release_round_trip cooperative_robot st st1 st2
                (eq_refl : lease_keepalive (conn st) = None)) as [H1 H2].
  split; [exact H1|]. apply H2; vm_compute; reflexivity.
Defined.

Lemma exit_status_0_means_success_witness :
  exit_status (fst (dunder_main (NUM := F) (Namespace default_args)
                      cooperative_robot initial_state)) = Exited 0 <->
  Namespace default_args = Help_requested.
Proof.
  apply (proj2 (proj2 (proj2 (exit_status_0_means_success (NUM := F)
                                (Namespace default_args) cooperative_robot
                                initial_state)))).
  vm_compute. reflexivity.
Defined.

Lemma invalid_arguments_exit_without_contact_witness :
  dunder_main (NUM := F) (Namespace zero_side_args) cooperative_robot
              initial_state = (Val 1%Z, initial_state) /\
  exit_status (fst (dunder_main (NUM := F) (Namespace zero_side_args)
                      cooperative_robot initial_state)) = Exited 1.
Proof.
  apply (invalid_arguments_exit_without_contact (NUM := F)).
  left. reflexivity.
Defined.


(** * The amended claims at concrete inputs *)

(** C5 as stated fails on the deadlines.  At side 1.0 and total time
    1.0 the third waypoint of [walk_square] has the deadline
    3 * 0.2 = 0.6000000000000001 s, while the third point of
    [walk_square_trajectory] carries 600000000 ns, which is what
    [seconds_to_duration] also makes of the different number 0.6: the
    conversion truncates to whole nanoseconds.  With a total time that
    is not a number, [walk_square] computes its five waypoints and
    [walk_square_trajectory] computes none, because the conversion
    raises ValueError. *)
Lemma batched_deadlines_are_converted :
  (exists plan trj,
      fst (trajectory_points (NUM := F) identity_pose 1%float 1%float
             cooperative_robot initial_state) = Val plan /\
      fst (traj_points (NUM := F) identity_pose 1%float 1%float
             cooperative_robot initial_state) = Val trj /\
      deadlines plan =
        [ 0x1.999999999999ap-3; 0x1.999999999999ap-2; 0x1.3333333333334p-1;
          0x1.999999999999ap-1; 1 ]%float /\
      map (fun tp => time_since_reference tp) trj =
        [ {| seconds := 0; nanos := 200000000 |};
          {| seconds := 0; nanos := 400000000 |};
          {| seconds := 0; nanos := 600000000 |};
          {| seconds := 0; nanos := 800000000 |};
          {| seconds := 1; nanos := 0 |} ] /\
      bosdyn_seconds_to_duration 0x1.3333333333333p-1 =
        Val {| seconds := 0; nanos := 600000000 |} /\
      PrimFloat.eqb 0x1.3333333333334p-1 0x1.3333333333333p-1 = false) /\
  (exists plan,
      fst (trajectory_points (NUM := F) identity_pose 1%float nan
             cooperative_robot initial_state) = Val plan /\
      length plan = 5 /\
      fst (traj_points (NUM := F) identity_pose 1%float nan
             cooperative_robot initial_state) = Exc ValueError).
Proof.
  split.
  - do 2 eexists. vm_compute. repeat split; reflexivity.
  - eexists. vm_compute. repeat split; reflexivity.
Qed.

Lemma strategies_same_geometry_witness :
  (exists plan,
      fst (trajectory_points (NUM := F) identity_pose 1%float 20%float
             cooperative_robot initial_state) = Val plan /\
      match
        fst (traj_points (NUM := F) identity_pose 1%float 20%float
               cooperative_robot initial_state)
      with
      | Val trj =>
          map (fun tp => pose tp) trj = map fst plan /\
          Forall2
            (fun tp wp =>
               bosdyn_seconds_to_duration (snd wp) =
               Val (time_since_reference tp))
            trj plan
      | Exc e =>
          exists d,
            In d (deadlines plan) /\ bosdyn_seconds_to_duration d = Exc e
      end) /\
  sent (snd (walk_square (NUM := F) ready_walker 1%float 0.5%float 20%float
               cooperative_robot initial_state)) =
    sent (snd (walk_square_trajectory (NUM := F) ready_walker 1%float
                 0.5%float 20%float cooperative_robot initial_state)) /\
  sent (snd (walk_square (NUM := F) ready_walker 1%float 0.5%float 20%float
               cooperative_robot initial_state)) = sent initial_state.
Proof.
  apply (strategies_same_geometry (NUM := F) cooperative_robot
           (eq_refl : declares released_keywords "max_vel_linear" = false)
           ready_walker identity_pose 1%float 0.5%float 20%float
           initial_state).
Defined.

(** C6 as stated fails: the waypoint loop of [walk_square] is not free
    of output.  At side 1.0 and total time 20.0 it hands these five
    records to [logger.debug], so it does not leave the state as it
    found it. *)
Lemma plan_loop_logs_five_records :
  let run := trajectory_points (NUM := F) identity_pose 1%float 20%float
               cooperative_robot initial_state in
  logged (snd run) =
    [ {| point_idx := 0; point_x := 0; point_y := 0;
         point_heading := 0; point_time := 4 |};
      {| point_idx := 1; point_x := 1; point_y := 0;
         point_heading := 0x1.921fb54442d18p+0; point_time := 8 |};
      {| point_idx := 2; point_x := 1; point_y := 1;
         point_heading := 0x1.921fb54442d18p+1; point_time := 12 |};
      {| point_idx := 3; point_x := 0; point_y := 1;
         point_heading := -0x1.921fb54442d18p+0; point_time := 16 |};
      {| point_idx := 4; point_x := 0; point_y := 0;
         point_heading := 0; point_time := 20 |} ]%float /\
  snd run <> initial_state.
Proof.
  cbv zeta. split; [vm_compute; reflexivity|].
  intros E. apply (f_equal (fun s => length (logged s))) in E.
  vm_compute in E. discriminate E.
Qed.

(** C7 as stated fails on the command line: asked for the help,
    argparse prints it and ends the process with status 0 although no
    step of the sequence has run; and a command line it cannot parse
    ends the process with status 2, not 1. *)
Lemma help_exits_0_without_a_run :
  let run := dunder_main (NUM := F) Help_requested cooperative_robot
               initial_state in
  exit_status (fst run) = Exited 0 /\
  trace (snd run) = [] /\
  exit_status (fst (dunder_main (NUM := F) Usage_error cooperative_robot
                      initial_state)) = Exited 2.
Proof. vm_compute. repeat split; reflexivity. Qed.

Lemma entry_point_exit_codes_witness :
  dunder_main (NUM := F) (Namespace zero_side_args) cooperative_robot
              initial_state = (Val 1%Z, initial_state).
Proof.
  apply (proj1 (proj1 (entry_point_exit_codes (NUM := F)
                         (Namespace zero_side_args) cooperative_robot
                         initial_state) zero_side_args eq_refl)).
  left. reflexivity.
Defined.

(** [--velocity nan] is not rejected by the validation, both of whose
    comparisons are False for NaN: [main] runs with it.  Behind the
    released SDK the process still ends with status 1, because
    [walk_square] fails. *)
Lemma nan_velocity_reaches_main :
  (forall (rb : Robot float) (st : State float),
      dunder_main (NUM := F) (Namespace nan_velocity_args) rb st =
      main (NUM := F) "192.168.1.20" 1%float nan false rb st) /\
  exit_status (fst (dunder_main (NUM := F) (Namespace nan_velocity_args)
                      cooperative_robot initial_state)) = Exited 1.
Proof. split; [intros rb st; reflexivity | vm_compute; reflexivity]. Qed.

Lemma cooperative_run_stops_at_the_builder_witness :
  exists st',
    main (NUM := F) "192.168.1.20" 1%float 0.5%float false cooperative_robot
         initial_state = (Val 1%Z, st') /\
    trace st' =
      trace initial_state ++
      [ Called (create_standard_sdk "SpotClient") None;
        Called (create_robot "192.168.1.20") None;
        Called (robot_authenticate "admin" "password") None;
        Called (ensure_client LeaseClient) None;
        Called (ensure_client RobotCommandClient) None;
        Called (ensure_client RobotStateClient) None;
        Called (ensure_client PowerClient) None;
        Called (LeaseKeepAlive_init true true) None;
        Called is_estopped None; Called (robot_power_on 20) None;
        Called wait_for_sync None; Called (blocking_stand 10) None;
        Called get_robot_state None; Called get_vision_tform_body None;
        Entered_disconnect; Called LeaseKeepAlive_exit None;
        Called robot_shutdown None ] /\
    sent st' = sent initial_state /\
    lease_keepalive (conn st') = None.
Proof.
  apply (cooperative_run_stops_at_the_builder (NUM := F) cooperative_robot
           (eq_refl : declares released_keywords "max_vel_linear" = false)
           (fun n => eq_refl) (fun n => eq_refl)
           "192.168.1.20" 1%float 0.5%float false initial_state).
Defined.
